(** * Clinic inventory: status classification, statistics, alerts and the
      record store of [InventoryData] (js/data.js)

    A shallow embedding of the class [InventoryData] and of the JavaScript
    primitives its methods rely on, followed by the properties of the
    inventory engine that were verified against it.  The functions of
    [Utils] (js/utils.js), of the API layer (js/api.js), of the dashboard
    (js/dashboard.js) and of the inventory table (js/inventory.js) that work
    on the same data are embedded after the class.

    Modelling conventions.
    - Numbers are mathematical integers ([Z]).  Quantities, thresholds and
      day counts are integers in the program; time values are integral
      milliseconds whose quotients by [msPerDay] are far inside the range in
      which the double-precision division followed by [Math.ceil] is exact.
    - A date field holds the time value (milliseconds since the epoch, UTC)
      that [new Date(field)] yields.  A date-only string such as
      ['2025-12-15'] parses to midnight UTC, a multiple of [msPerDay].
    - [now] is the time value read by [new Date()]; one method call reads the
      clock once.
    - [saveToStorage] only mirrors [items] into the browser's key-value store
      and swallows its own failures; it has no effect on the state modelled
      here. *)

From Stdlib Require Import ZArith List Bool String Ascii Lia Permutation Sorted.
From Stdlib Require Import DecimalString HexadecimalString.
Import ListNotations.
Local Open Scope string_scope.
Local Open Scope list_scope.
Local Open Scope Z_scope.

(** ** JavaScript primitives *)

Module JS.

(** [x || d] where [x] is a possibly absent number: [undefined] and [0] are
    falsy, every other integer is truthy. *)
Definition orDefault (x : option Z) (d : Z) : Z :=
  match x with
  | Some v => if v =? 0 then d else v
  | None => d
  end.

(** [1000 * 60 * 60 * 24] *)
Definition msPerDay : Z := 1000 * 60 * 60 * 24.

(** [Math.ceil(a / b)] for a positive divisor. *)
Definition ceilDiv (a b : Z) : Z := - ((- a) / b).

(** [Math.floor(a / b)] *)
Definition floorDiv (a b : Z) : Z := a / b.

(** [String.prototype.toLowerCase], on the ASCII range. *)
Definition lowerChar (c : ascii) : ascii :=
  let n := nat_of_ascii c in
  if ((65 <=? n) && (n <=? 90))%nat then ascii_of_nat (n + 32) else c.

Fixpoint toLowerCase (s : string) : string :=
  match s with
  | EmptyString => EmptyString
  | String c s' => String (lowerChar c) (toLowerCase s')
  end.

(** [s.includes(t)]: [t] occurs in [s] as a contiguous substring. *)
Fixpoint includes (s t : string) : bool :=
  String.prefix t s ||
  match s with
  | EmptyString => false
  | String _ s' => includes s' t
  end.

(** Outcome of an expression that may throw a [TypeError] (a method call
    on [undefined]). *)
Inductive Completion (A : Type) : Type :=
| Normal (v : A)
| TypeError.
Arguments Normal {A} v.
Arguments TypeError {A}.

(** [Array.prototype.filter] with a callback that may throw: the elements
    are visited from left to right and the first throw aborts the call. *)
Fixpoint filterE {A : Type} (p : A -> Completion bool) (l : list A)
  : Completion (list A) :=
  match l with
  | [] => Normal []
  | x :: l' =>
      match p x with
      | TypeError => TypeError
      | Normal b =>
          match filterE p l' with
          | TypeError => TypeError
          | Normal r => Normal (if b then x :: r else r)
          end
      end
  end.

(** [Array.prototype.findIndex]; [None] stands for [-1]. *)
Fixpoint findIndex {A : Type} (p : A -> bool) (l : list A) : option nat :=
  match l with
  | [] => None
  | x :: l' => if p x then Some O else option_map S (findIndex p l')
  end.

(** [l[n] = x] for an index inside the array. *)
Fixpoint setIndex {A : Type} (n : nat) (x : A) (l : list A) : list A :=
  match l, n with
  | [], _ => []
  | _ :: l', O => x :: l'
  | y :: l', S n' => y :: setIndex n' x l'
  end.

(** [Array.prototype.sort(cmp)].  The language requires the sort to be
    stable; for a consistent comparator its result is therefore the unique
    ordered arrangement that keeps equal elements in their original order.
    It is computed here by insertion from the right: an element is placed
    in front of the first element it does not have to follow. *)
Section Sort.
Context {A : Type} (cmp : A -> A -> Z).

Fixpoint insert (x : A) (l : list A) : list A :=
  match l with
  | [] => [x]
  | y :: l' => if cmp x y <=? 0 then x :: l else y :: insert x l'
  end.

Fixpoint sort (l : list A) : list A :=
  match l with
  | [] => []
  | x :: l' => insert x (sort l')
  end.
End Sort.

(** Orders on the elements of a list induced by a numeric rank. *)
Definition descending {A : Type} (rank : A -> Z) (a b : A) : Prop :=
  rank b <= rank a.

Definition strictlyDescending {A : Type} (rank : A -> Z) (a b : A) : Prop :=
  rank b < rank a.

(** [l.splice(n, 1)] for an index inside the array: the array without its
    element at [n]. *)
Fixpoint removeIndex {A : Type} (n : nat) (l : list A) : list A :=
  match l, n with
  | [], _ => []
  | _ :: l', O => l'
  | y :: l', S n' => y :: removeIndex n' l'
  end.

(** [String(n)] and [n.toString(16)] for an integer [n]. *)
Definition numberToString (n : Z) : string :=
  DecimalString.NilZero.string_of_int (Z.to_int n).

Definition toString16 (n : Z) : string :=
  HexadecimalString.NilZero.string_of_int (Z.to_hex_int n).

(** [n >>> 0]: the integer as an unsigned 32-bit number. *)
Definition toUint32 (n : Z) : Z := n mod 2 ^ 32.

(** [s.lastIndexOf(c)] for a one-character search string; [-1] when [c]
    does not occur. *)
Fixpoint lastIndexOf (c : ascii) (s : string) : Z :=
  match s with
  | EmptyString => -1
  | String d s' =>
      let r := lastIndexOf c s' in
      if r >=? 0 then r + 1 else if Ascii.eqb d c then 0 else -1
  end.

(** [s.slice(start)] for a start that is not negative. *)
Fixpoint slice (s : string) (start : Z) : string :=
  match s with
  | EmptyString => EmptyString
  | String _ s' => if start <=? 0 then s else slice s' (start - 1)
  end.

(** White space and line terminators of the ASCII range: tab, line feed,
    vertical tab, form feed, carriage return, space. *)
Definition isWhiteSpace (c : ascii) : bool :=
  let n := nat_of_ascii c in
  (((9 <=? n) && (n <=? 13)) || (n =? 32))%nat.

Fixpoint trimStart (s : string) : string :=
  match s with
  | EmptyString => EmptyString
  | String c s' => if isWhiteSpace c then trimStart s' else s
  end.

Fixpoint trimEnd (s : string) : string :=
  match s with
  | EmptyString => EmptyString
  | String c s' =>
      match trimEnd s' with
      | EmptyString => if isWhiteSpace c then EmptyString
                       else String c EmptyString
      | r => String c r
      end
  end.

(** [s.trim()] *)
Definition trim (s : string) : string := trimEnd (trimStart s).

(** The characters of a string, for statements about its content. *)
Fixpoint chars (s : string) : list ascii :=
  match s with
  | EmptyString => []
  | String c s' => c :: chars s'
  end.

(** [Number.isSafeInteger(n)] for an integer [n]: sums and differences of
    integers are exact in the arithmetic of the language as long as the
    result is a safe integer. *)
Definition isSafeInteger (n : Z) : Prop :=
  - (2 ^ 53 - 1) <= n <= 2 ^ 53 - 1.

End JS.

(** ** Inventory records *)

Module Item.
Record t : Type := mk {
  id : string;
  name : string;
  category : string;
  quantity : Z;
  lowStockThreshold : option Z;
  expiryDate : Z;
  batchNumber : option string;
  description : option string;
  dateAdded : Z;
  lastUpdated : Z
}.
End Item.

(** A partial record, as passed to [updateItem]: every field may be present
    or absent. *)
Module Updates.
Record t : Type := mk {
  id : option string;
  name : option string;
  category : option string;
  quantity : option Z;
  lowStockThreshold : option Z;
  expiryDate : option Z;
  batchNumber : option string;
  description : option string;
  dateAdded : option Z;
  lastUpdated : option Z
}.

Definition empty : t :=
  mk None None None None None None None None None None.
End Updates.

Module Stats.
Record t : Type := mk {
  total : Z;
  lowStock : Z;
  expiring : Z;
  expired : Z;
  inStock : Z;
  outOfStock : Z
}.
End Stats.

Inductive Priority : Type := high | medium | low.

(** An entry of [getCriticalAlerts].  The [message] and [icon] fields are
    display strings derived from the item; they play no part in the order of
    the list and are left out. *)
Module Alert.
Record t : Type := mk {
  type : string;
  item : Item.t;
  priority : Priority
}.
End Alert.

Module Activity.
Record t : Type := mk {
  type : string;
  item : Item.t;
  message : string;
  date : Z
}.
End Activity.

(** The object produced by [exportData] and read by [importData]. *)
Module ExportData.
Record t : Type := mk {
  items : option (list Item.t);
  exportDate : Z;
  version : string
}.
End ExportData.

(** ** The class [InventoryData] *)

Module InventoryData.
Import JS.

Record t : Type := mk {
  items : list Item.t;
  lowStockThreshold : Z;
  expiryWarningDays : Z
}.

(** [new Date().toISOString().split('T')[0]], as the time value of that
    UTC calendar date. *)
Definition today (now : Z) : Z := now / msPerDay * msPerDay.

(** *** Utility methods *)

Definition isExpired (now : Z) (expiryDate : Z) : bool :=
  expiryDate <? now.

Definition isExpiringSoon (now : Z) (expiryDate : Z) (days : Z) : bool :=
  let diffTime := expiryDate - now in
  let diffDays := ceilDiv diffTime msPerDay in
  (diffDays <=? days) && (diffDays >? 0).

Definition getDaysUntilExpiry (now : Z) (expiryDate : Z) : Z :=
  let diffTime := expiryDate - now in
  ceilDiv diffTime msPerDay.

(** [item.lowStockThreshold || this.lowStockThreshold] *)
Definition effectiveThreshold (this : t) (item : Item.t) : Z :=
  orDefault (Item.lowStockThreshold item) (lowStockThreshold this).

Definition getItemStatus (this : t) (now : Z) (item : Item.t) : string :=
  if Item.quantity item =? 0 then "out-of-stock"
  else if isExpired now (Item.expiryDate item) then "expired"
  else if isExpiringSoon now (Item.expiryDate item) (expiryWarningDays this)
       then "expiring"
  else if Item.quantity item <=? effectiveThreshold this item then "low-stock"
  else "in-stock".

(** *** CRUD operations *)

Definition getAllItems (this : t) : list Item.t := items this.

Definition getItemById (this : t) (id : string) : option Item.t :=
  find (fun item => String.eqb (Item.id item) id) (items this).

(** [{ ...itemData, id: generateId(), dateAdded: today, lastUpdated: today }].
    [newId] is the string produced by [generateId] (clock and random
    digits). *)
Definition addItem (itemData : Item.t) (newId : string) (now : Z) (this : t)
  : Item.t * t :=
  let newItem :=
    Item.mk newId (Item.name itemData) (Item.category itemData)
      (Item.quantity itemData) (Item.lowStockThreshold itemData)
      (Item.expiryDate itemData) (Item.batchNumber itemData)
      (Item.description itemData) (today now) (today now) in
  (newItem,
   mk (items this ++ [newItem]) (lowStockThreshold this)
      (expiryWarningDays this)).

Definition spread {A : Type} (old : A) (upd : option A) : A :=
  match upd with
  | Some v => v
  | None => old
  end.

Definition spreadOpt {A : Type} (old : option A) (upd : option A)
  : option A :=
  match upd with
  | Some v => Some v
  | None => old
  end.

(** [{ ...item, ...updates, lastUpdated: today }] *)
Definition merge (item : Item.t) (updates : Updates.t) (now : Z) : Item.t :=
  Item.mk
    (spread (Item.id item) (Updates.id updates))
    (spread (Item.name item) (Updates.name updates))
    (spread (Item.category item) (Updates.category updates))
    (spread (Item.quantity item) (Updates.quantity updates))
    (spreadOpt (Item.lowStockThreshold item)
       (Updates.lowStockThreshold updates))
    (spread (Item.expiryDate item) (Updates.expiryDate updates))
    (spreadOpt (Item.batchNumber item) (Updates.batchNumber updates))
    (spreadOpt (Item.description item) (Updates.description updates))
    (spread (Item.dateAdded item) (Updates.dateAdded updates))
    (today now).

Definition updateItem (id : string) (updates : Updates.t) (now : Z)
  (this : t) : option Item.t * t :=
  match findIndex (fun item => String.eqb (Item.id item) id) (items this) with
  | Some index =>
      match nth_error (items this) index with
      | Some old =>
          let new := merge old updates now in
          (Some new,
           mk (setIndex index new (items this)) (lowStockThreshold this)
              (expiryWarningDays this))
      | None => (None, this)
      end
  | None => (None, this)
  end.

(** [updateItem(id, { quantity: Math.max(0, newQuantity) })] *)
Definition updateQuantity (id : string) (newQuantity : Z) (now : Z)
  (this : t) : option Item.t * t :=
  updateItem id
    (Updates.mk None None None (Some (Z.max 0 newQuantity)) None None None
       None None None)
    now this.

(** [updateQuantity(id, item.quantity + amount)].  The sum is the exact
    integer sum, which is what the language computes when that sum is a
    safe integer ([isSafeInteger]). *)
Definition increaseQuantity (id : string) (amount : Z) (now : Z) (this : t)
  : option Item.t * t :=
  match getItemById this id with
  | Some item => updateQuantity id (Item.quantity item + amount) now this
  | None => (None, this)
  end.

Definition decreaseQuantity (id : string) (amount : Z) (now : Z) (this : t)
  : option Item.t * t :=
  match getItemById this id with
  | Some item => updateQuantity id (Item.quantity item - amount) now this
  | None => (None, this)
  end.

(** *** Filtering and search *)

(** The callback of [searchItems]: a chain of [||] evaluated from left to
    right.  [item.batchNumber.toLowerCase()] is reached when neither the
    name nor the category matches, and throws when the batch number is
    absent; the description is guarded by [item.description && ...], whose
    value is falsy for an absent or empty description. *)
Definition searchMatch (searchTerm : string) (item : Item.t)
  : Completion bool :=
  if includes (toLowerCase (Item.name item)) searchTerm then Normal true
  else if includes (toLowerCase (Item.category item)) searchTerm
       then Normal true
  else match Item.batchNumber item with
       | None => TypeError
       | Some batch =>
           if includes (toLowerCase batch) searchTerm then Normal true
           else match Item.description item with
                | None => Normal false
                | Some EmptyString => Normal false
                | Some d => Normal (includes (toLowerCase d) searchTerm)
                end
       end.

Definition searchItems (query : string) (this : t)
  : Completion (list Item.t) :=
  let searchTerm := toLowerCase query in
  filterE (searchMatch searchTerm) (items this).

(** [!category] holds for an absent or empty category. *)
Definition filterByCategory (category : option string) (this : t)
  : list Item.t :=
  match category with
  | None => getAllItems this
  | Some EmptyString => getAllItems this
  | Some c => filter (fun item => String.eqb (Item.category item) c)
                (items this)
  end.

Definition getLowStockItems (this : t) : list Item.t :=
  filter (fun item =>
            (Item.quantity item <=? effectiveThreshold this item) &&
            (Item.quantity item >? 0))
    (items this).

Definition getExpiringSoonItems (this : t) (now : Z) : list Item.t :=
  filter (fun item =>
            isExpiringSoon now (Item.expiryDate item)
              (expiryWarningDays this) &&
            negb (isExpired now (Item.expiryDate item)))
    (items this).

Definition getExpiredItems (this : t) (now : Z) : list Item.t :=
  filter (fun item => isExpired now (Item.expiryDate item)) (items this).

Definition filterByStatus (status : string) (this : t) (now : Z)
  : list Item.t :=
  if String.eqb status "in-stock" then
    filter (fun item =>
              (Item.quantity item >? effectiveThreshold this item) &&
              negb (isExpiringSoon now (Item.expiryDate item)
                      (expiryWarningDays this)) &&
              negb (isExpired now (Item.expiryDate item)))
      (items this)
  else if String.eqb status "low-stock" then
    filter (fun item =>
              (Item.quantity item <=? effectiveThreshold this item) &&
              (Item.quantity item >? 0))
      (items this)
  else if String.eqb status "out-of-stock" then
    filter (fun item => Item.quantity item =? 0) (items this)
  else if String.eqb status "expiring" then
    filter (fun item =>
              isExpiringSoon now (Item.expiryDate item)
                (expiryWarningDays this) &&
              negb (isExpired now (Item.expiryDate item)))
      (items this)
  else if String.eqb status "expired" then
    filter (fun item => isExpired now (Item.expiryDate item)) (items this)
  else getAllItems this.

(** *** Analytics *)

Definition count {A : Type} (l : list A) : Z := Z.of_nat (List.length l).

Definition getStats (this : t) (now : Z) : Stats.t :=
  let total := count (items this) in
  let lowStock := count (getLowStockItems this) in
  let expiring := count (getExpiringSoonItems this now) in
  let expired := count (getExpiredItems this now) in
  let inStock := total - lowStock - expired in
  Stats.mk total lowStock expiring expired inStock
    (count (filter (fun item => Item.quantity item =? 0) (items this))).

Definition priorityOrder (p : Priority) : Z :=
  match p with
  | high => 3
  | medium => 2
  | low => 1
  end.

(** The array [criticalItems] as it stands after the four [forEach] loops
    and before the final sort. *)
Definition criticalItems (this : t) (now : Z) : list Alert.t :=
  map (fun item => Alert.mk "out-of-stock" item high)
    (filter (fun item => Item.quantity item =? 0) (items this))
  ++
  map (fun item => Alert.mk "critical-low" item high)
    (filter (fun item =>
               (Item.quantity item >? 0) &&
               (Item.quantity item <=?
                  floorDiv (effectiveThreshold this item) 2))
       (items this))
  ++
  map (fun item => Alert.mk "expired" item high)
    (getExpiredItems this now)
  ++
  map (fun item => Alert.mk "expiring-soon" item medium)
    (filter (fun item =>
               (getDaysUntilExpiry now (Item.expiryDate item) <=? 7) &&
               (getDaysUntilExpiry now (Item.expiryDate item) >? 0))
       (items this)).

Definition getCriticalAlerts (this : t) (now : Z) : list Alert.t :=
  sort (fun a b =>
          priorityOrder (Alert.priority b) - priorityOrder (Alert.priority a))
    (criticalItems this now).

Definition getRecentActivity (this : t) : list Activity.t :=
  let sortedItems :=
    sort (fun a b => Item.lastUpdated b - Item.lastUpdated a) (items this) in
  map (fun item =>
         Activity.mk "updated" item (Item.name item ++ " was updated")%string
           (Item.lastUpdated item))
    (firstn 10 sortedItems).

(** *** Deletion, export and import *)

Definition deleteItem (id : string) (this : t) : option Item.t * t :=
  match findIndex (fun item => String.eqb (Item.id item) id) (items this) with
  | Some index =>
      match nth_error (items this) index with
      | Some deletedItem =>
          (Some deletedItem,
           mk (removeIndex index (items this)) (lowStockThreshold this)
              (expiryWarningDays this))
      | None => (None, this)
      end
  | None => (None, this)
  end.



End InventoryData.

(** ** Utility functions ([Utils], js/utils.js) *)

Module Utils.
Import JS.

(** [Math.floor(diffMs / (1000 * 60 * 60 * 24))] and the ladder of
    [formatRelativeTime]. *)
Definition formatRelativeTime (now : Z) (date : Z) : string :=
  let diffMs := now - date in
  let diffDays := floorDiv diffMs msPerDay in
  if diffDays =? 0 then "Today"
  else if diffDays =? 1 then "Yesterday"
  else if diffDays <? 7 then (numberToString diffDays ++ " days ago")%string
  else if diffDays <? 30
       then (numberToString (floorDiv diffDays 7) ++ " weeks ago")%string
  else if diffDays <? 365
       then (numberToString (floorDiv diffDays 30) ++ " months ago")%string
  else (numberToString (floorDiv diffDays 365) ++ " years ago")%string.

(** [Math.min(Math.max(num, min), max)] *)
Definition clamp (num min max : Z) : Z := Z.min (Z.max num min) max.

(** [text.substring(0, maxLength) + '...'] when the text is longer than
    [maxLength]; a negative end of [substring] counts as 0. *)
Definition truncateText (text : string) (maxLength : Z) : string :=
  if Z.of_nat (String.length text) <=? maxLength then text
  else (String.substring 0 (Z.to_nat maxLength) text ++ "...")%string.

(** [str.replace(/[<>]/g, '')] *)
Fixpoint removeAngleBrackets (str : string) : string :=
  match str with
  | EmptyString => EmptyString
  | String c s' =>
      if Ascii.eqb c "<" || Ascii.eqb c ">" then removeAngleBrackets s'
      else String c (removeAngleBrackets s')
  end.

Definition sanitizeInput (str : string) : string :=
  trim (removeAngleBrackets str).

(** [filename.slice((filename.lastIndexOf('.') - 1 >>> 0) + 2)] *)
Definition getFileExtension (filename : string) : string :=
  slice filename (toUint32 (lastIndexOf "." filename - 1) + 2).

(** [x.toString(16)], with a leading ['0'] when it has one digit. *)
Definition hexComponent (x : Z) : string :=
  let hex := toString16 x in
  if (String.length hex =? 1)%nat then ("0" ++ hex)%string else hex.

Definition rgbToHex (r g b : Z) : string :=
  ("#" ++ hexComponent r ++ hexComponent g ++ hexComponent b)%string.

(** The value of a character of the class [[a-f\d]] under the flag [i]. *)
Definition hexDigit (c : ascii) : option Z :=
  let n := Z.of_nat (nat_of_ascii c) in
  if (48 <=? n) && (n <=? 57) then Some (n - 48)
  else if (97 <=? n) && (n <=? 102) then Some (n - 87)
  else if (65 <=? n) && (n <=? 70) then Some (n - 55)
  else None.

(** [parseInt(pair, 16)] on a group of two hexadecimal digits. *)
Definition parsePair (c1 c2 : ascii) : option Z :=
  match hexDigit c1, hexDigit c2 with
  | Some h, Some l => Some (16 * h + l)
  | _, _ => None
  end.

(** The match of [/^([a-f\d]{2})([a-f\d]{2})([a-f\d]{2})$/i]. *)
Definition sixDigits (s : string) : option (Z * Z * Z) :=
  match s with
  | String c1 (String c2 (String c3 (String c4 (String c5
      (String c6 EmptyString))))) =>
      match parsePair c1 c2, parsePair c3 c4, parsePair c5 c6 with
      | Some r, Some g, Some b => Some (r, g, b)
      | _, _, _ => None
      end
  | _ => None
  end.

(** [/^#?([a-f\d]{2})([a-f\d]{2})([a-f\d]{2})$/i.exec(hex)]: the sign [#]
    is optional; [None] stands for [null]. *)
Definition hexToRgb (hex : string) : option (Z * Z * Z) :=
  match hex with
  | String "#" rest => sixDigits rest
  | _ => sixDigits hex
  end.

End Utils.

(** ** The API layer ([InventoryAPI], js/api.js) *)

Module ItemData.
(** The fields of a form payload that [validateItemData] looks at; [None]
    is an absent field.  The quantity is a number. *)
Record t : Type := mk {
  name : option string;
  category : option string;
  quantity : option Z;
  expiryDate : option string
}.
End ItemData.

Module Filters.
Record t : Type := mk {
  search : option string;
  category : option string;
  status : option string
}.
End Filters.

Inductive Validation : Type :=
| Valid
| ValidationError (errors : list string).

Module InventoryAPI.
Import JS.

(** Truthiness of a possibly absent string and of a possibly absent
    number. *)
Definition truthyString (s : option string) : bool :=
  match s with
  | Some (String _ _) => true
  | _ => false
  end.

Definition truthyNumber (n : option Z) : bool :=
  match n with
  | Some v => negb (v =? 0)
  | None => false
  end.

Section Validation.
(** [Utils.isValidDate]: whether [new Date(dateString)] is a valid date.
    The parser belongs to the platform. *)
Variable isValidDate : string -> bool.

Definition requiredErrors (itemData : ItemData.t) : list string :=
  (if truthyString (ItemData.name itemData) then []
   else ["name is required"])
  ++ (if truthyString (ItemData.category itemData) then []
      else ["category is required"])
  ++ (if truthyNumber (ItemData.quantity itemData) then []
      else ["quantity is required"])
  ++ (if truthyString (ItemData.expiryDate itemData) then []
      else ["expiryDate is required"]).

Definition validateItemData (itemData : ItemData.t) : Validation :=
  let errors :=
    requiredErrors itemData
    ++ (match ItemData.quantity itemData with
        | Some q => if negb (q =? 0) && (q <? 0)
                    then ["Quantity must be non-negative"] else []
        | None => []
        end)
    ++ (match ItemData.expiryDate itemData with
        | Some (String c d) =>
            if negb (isValidDate (String c d)) then ["Invalid expiry date"]
            else []
        | _ => []
        end) in
  match errors with
  | [] => Valid
  | _ => ValidationError errors
  end.
End Validation.

(** [applyFilters(items, filters)]: the three steps assign to the same
    variable; the search and the status filter take their input from the
    store, not from that variable. *)
Definition applyFilters (items : list Item.t) (filters : Filters.t)
  (inventoryData : InventoryData.t) (now : Z) : Completion (list Item.t) :=
  let afterSearch :=
    match Filters.search filters with
    | Some (String c q) => InventoryData.searchItems (String c q) inventoryData
    | _ => Normal items
    end in
  match afterSearch with
  | TypeError => TypeError
  | Normal filteredItems =>
      let afterCategory :=
        match Filters.category filters with
        | Some (String c k) =>
            filter (fun item => String.eqb (Item.category item) (String c k))
              filteredItems
        | _ => filteredItems
        end in
      match Filters.status filters with
      | Some (String c s) =>
          Normal (InventoryData.filterByStatus (String c s) inventoryData now)
      | _ => Normal afterCategory
      end
  end.

End InventoryAPI.

(** ** The dashboard ([DashboardManager], js/dashboard.js) *)

Module DashboardManager.
Import JS.

(** [prepareCriticalAlerts]; as in [Alert.t] the display fields of an alert
    are left out.  The threshold falls back to the literal 10. *)
Definition preparedAlerts (lowStockItems expiringSoonItems expiredItems
  : list Item.t) (now : Z) : list Alert.t :=
  map (fun item => Alert.mk "expired" item high) expiredItems
  ++
  map (fun item => Alert.mk "out-of-stock" item high)
    (filter (fun item => Item.quantity item =? 0) lowStockItems)
  ++
  map (fun item => Alert.mk "critical-low" item high)
    (filter (fun item =>
               (Item.quantity item >? 0) &&
               (Item.quantity item <=?
                  floorDiv (orDefault (Item.lowStockThreshold item) 10) 2))
       lowStockItems)
  ++
  map (fun item => Alert.mk "expiring-soon" item medium)
    (filter (fun item =>
               let days :=
                 InventoryData.getDaysUntilExpiry now (Item.expiryDate item) in
               (days <=? 7) && (days >? 0))
       expiringSoonItems).

Definition prepareCriticalAlerts (lowStockItems expiringSoonItems expiredItems
  : list Item.t) (now : Z) : list Alert.t :=
  sort (fun a b =>
          InventoryData.priorityOrder (Alert.priority b) -
          InventoryData.priorityOrder (Alert.priority a))
    (preparedAlerts lowStockItems expiringSoonItems expiredItems now).

End DashboardManager.

(** ** The inventory table ([InventoryManager], js/inventory.js) *)

Module InventoryManager.

(** [labels[status] || 'Unknown'], for a status that is not the name of a
    property every object inherits. *)
Definition getStatusLabel (status : string) : string :=
  if String.eqb status "in-stock" then "In Stock"
  else if String.eqb status "low-stock" then "Low Stock"
  else if String.eqb status "out-of-stock" then "Out of Stock"
  else if String.eqb status "expiring" then "Expiring Soon"
  else if String.eqb status "expired" then "Expired"
  else "Unknown".

End InventoryManager.

(** ** The classifier as the specification words it *)

Module Spec.
Import JS.

(** The reference instant with its time of day removed. *)
Definition startOfDay (referenceDate : Z) : Z :=
  referenceDate / msPerDay * msPerDay.

(** Ceiling of [(expiryDate - referenceDate)] in whole days, the reference
    instant being normalised to the start of its day before the
    subtraction. *)
Definition daysUntilExpiry (expiryDate referenceDate : Z) : Z :=
  ceilDiv (expiryDate - startOfDay referenceDate) msPerDay.

(** A calendar date: a time value with no time-of-day component. *)
Definition isCalendarDate (d : Z) : Prop := d mod msPerDay = 0.

(** The match of a record against a search term: some field among name,
    category, batch number and description contains the term, ignoring
    case; an absent field contains nothing. *)
Definition anyFieldMatches (searchTerm : string) (item : Item.t) : bool :=
  includes (toLowerCase (Item.name item)) searchTerm
  || includes (toLowerCase (Item.category item)) searchTerm
  || match Item.batchNumber item with
     | Some batch => includes (toLowerCase batch) searchTerm
     | None => false
     end
  || match Item.description item with
     | Some d => includes (toLowerCase d) searchTerm
     | None => false
     end.

(** The effective threshold as the specification words it: the threshold
    of the record if present, else the default. *)
Definition effectiveThreshold (config : InventoryData.t) (record : Item.t)
  : Z :=
  match Item.lowStockThreshold record with
  | Some threshold => threshold
  | None => InventoryData.lowStockThreshold config
  end.

(** The classifier as the specification words it: the five rules in their
    order of precedence, the fourth with the effective threshold above. *)
Definition classifyStatus (config : InventoryData.t) (referenceDate : Z)
  (record : Item.t) : string :=
  if Item.quantity record =? 0 then "out-of-stock"
  else if InventoryData.isExpired referenceDate (Item.expiryDate record)
       then "expired"
  else if InventoryData.isExpiringSoon referenceDate (Item.expiryDate record)
            (InventoryData.expiryWarningDays config)
       then "expiring"
  else if Item.quantity record <=? effectiveThreshold config record
       then "low-stock"
  else "in-stock".

(** The invariant of the data model on quantities. *)
Definition quantitiesNonNegative (this : InventoryData.t) : Prop :=
  Forall (fun item => 0 <= Item.quantity item) (InventoryData.items this).
End Spec.

(** ** Sample data used to exercise the theorems *)

Module Examples.
Import JS.

(** 2025-08-15T00:00:00.000Z *)
Definition midnight : Z := 20315 * msPerDay.

(** 2025-08-15T09:30:00.000Z *)
Definition morning : Z := midnight + 34200000.

Definition day (n : Z) : Z := midnight + n * msPerDay.

Definition sample (id : string) (quantity : Z) (threshold : option Z)
  (expiryDate : Z) (lastUpdated : Z) : Item.t :=
  Item.mk id ("Item " ++ id)%string "Medicine" quantity threshold expiryDate
    (Some ("B" ++ id)%string) (Some "sample") (day (-100)) lastUpdated.

Definition store (l : list Item.t) : InventoryData.t :=
  InventoryData.mk l 10 30.

(** One record expiring in three days, one expired the day before, one out
    of stock, in that order in the store. *)
Definition expiringSoonItem : Item.t := sample "c" 50 (Some 10) (day 3) 0.
Definition expiredItem : Item.t := sample "b" 50 (Some 10) (day (-1)) 0.
Definition outOfStockItem : Item.t := sample "a" 0 (Some 10) (day 400) 0.

Definition alertStore : InventoryData.t :=
  store [expiringSoonItem; expiredItem; outOfStockItem].

(** Five records with distinct [lastUpdated] dates. *)
Definition fiveItems : list Item.t :=
  [ sample "1" 5 None (day 400) (day (-3));
    sample "2" 5 None (day 400) (day (-1));
    sample "3" 5 None (day 400) (day (-5));
    sample "4" 5 None (day 400) (day (-2));
    sample "5" 5 None (day 400) (day (-4)) ].

(** Low on stock and expired the day before. *)
Definition lowExpiredItem : Item.t := sample "x" 3 (Some 10) (day (-1)) 0.

(** A record stored without a batch number, and one without a
    description. *)
Definition noBatchItem : Item.t :=
  Item.mk "7" "Surgical Masks" "Consumable" 8 (Some 50) (day 400) None
    (Some "3-ply disposable surgical masks") (day (-100)) (day (-20)).

Definition noDescriptionItem : Item.t :=
  Item.mk "8" "Surgical Masks" "Consumable" 8 (Some 50) (day 400)
    (Some "MASK2024001") None (day (-100)) (day (-20)).

(** Update payloads [{ quantity: -5 }] and [{ id: '99', dateAdded: ... }]. *)
Definition negativeQuantity : Updates.t :=
  Updates.mk None None None (Some (-5)) None None None None None None.

Definition newIdentity : Updates.t :=
  Updates.mk (Some "99") None None None None None None None (Some (day 0))
    None.

Definition renamed : Updates.t :=
  Updates.mk None (Some "Renamed") None (Some 7) None None None None None
    None.
(** A record stored with a threshold of 0, with stock and far from its
    expiry date. *)
Definition zeroThresholdItem : Item.t :=
  sample "t" 5 (Some 0) (day 400) 0.

(** One record of each kind: in stock; low on stock; low and expired; low
    and expiring in five days; out of stock; expired with stock; expiring
    in three days with stock; expired with quantity 0. *)
Definition mixedItems : list Item.t :=
  [ sample "i" 50 (Some 10) (day 400) 0;
    sample "l" 3 (Some 10) (day 400) 0;
    lowExpiredItem;
    sample "e" 3 (Some 10) (day 5) 0;
    outOfStockItem;
    expiredItem;
    expiringSoonItem;
    sample "y" 0 None (day (-1)) 0 ].

End Examples.

(** * Verified properties *)

Import JS InventoryData.

(** ** Arithmetic of whole days *)

Section CeilDiv.
Variable b : Z.
Hypothesis b_pos : 0 < b.

Lemma ceilDiv_bounds (a : Z) :
  b * (ceilDiv a b - 1) < a <= b * ceilDiv a b.
Proof.
  unfold ceilDiv.
  pose proof (Z.div_mod (- a) b ltac:(lia)) as E.
  pose proof (Z.mod_pos_bound (- a) b b_pos) as R.
  lia.
Qed.

Lemma ceilDiv_unique (a n : Z) :
  b * (n - 1) < a <= b * n -> ceilDiv a b = n.
Proof.
  intros H. pose proof (ceilDiv_bounds a) as C.
  assert (ceilDiv a b - n < 1) by nia.
  assert (n - ceilDiv a b < 1) by nia.
  lia.
Qed.

Lemma ceilDiv_pos_iff (a : Z) : 0 < ceilDiv a b <-> 0 < a.
Proof.
  pose proof (ceilDiv_bounds a) as C. split; intros H; nia.
Qed.

Lemma floor_decompose (a : Z) :
  a = a / b * b + a mod b /\ 0 <= a mod b < b.
Proof.
  split.
  - pose proof (Z.div_mod a b ltac:(lia)). lia.
  - apply Z.mod_pos_bound, b_pos.
Qed.

Lemma ceilDiv_day_numbers (e n : Z) :
  e mod b = 0 -> ceilDiv (e - n) b = e / b - n / b.
Proof.
  intros H. apply ceilDiv_unique.
  destruct (floor_decompose e) as [E _].
  destruct (floor_decompose n) as [N R].
  rewrite H in E. nia.
Qed.
End CeilDiv.

Lemma msPerDay_pos : 0 < msPerDay.
Proof. reflexivity. Qed.

(** On a calendar date the day count is the difference of the two day
    numbers, whatever the time of day of [now]. *)
Lemma getDaysUntilExpiry_day_numbers (now expiryDate : Z) :
  Spec.isCalendarDate expiryDate ->
  getDaysUntilExpiry now expiryDate = expiryDate / msPerDay - now / msPerDay.
Proof.
  intros H. unfold getDaysUntilExpiry.
  now apply ceilDiv_day_numbers; [apply msPerDay_pos |].
Qed.

Lemma startOfDay_day_number (now : Z) :
  Spec.startOfDay now / msPerDay = now / msPerDay.
Proof.
  unfold Spec.startOfDay. apply Z.div_mul. discriminate.
Qed.

Lemma isExpiringSoon_days (now expiryDate days : Z) :
  isExpiringSoon now expiryDate days =
  (getDaysUntilExpiry now expiryDate <=? days) &&
  (getDaysUntilExpiry now expiryDate >? 0).
Proof. reflexivity. Qed.

(** A date that is expiring soon lies strictly in the future, so it is not
    expired. *)
Lemma isExpiringSoon_not_expired (now expiryDate days : Z) :
  isExpiringSoon now expiryDate days = true ->
  isExpired now expiryDate = false.
Proof.
  unfold isExpiringSoon, isExpired. cbv zeta. intros H.
  apply andb_true_iff in H as [_ H].
  apply Z.gtb_lt in H.
  apply -> (ceilDiv_pos_iff msPerDay msPerDay_pos) in H.
  apply Z.ltb_ge. lia.
Qed.

(** ** Classifier *)

(** [effectiveThreshold] is the record's own threshold when it is present and
    not zero; an absent threshold and a threshold of 0 both fall back to the
    store-wide default. *)
Lemma effectiveThreshold_cases (this : InventoryData.t) (item : Item.t) :
  match Item.lowStockThreshold item with
  | Some 0 | None => effectiveThreshold this item = lowStockThreshold this
  | Some v => effectiveThreshold this item = v
  end.
Proof.
  unfold effectiveThreshold, orDefault.
  destruct (Item.lowStockThreshold item) as [[|p|p]|]; reflexivity.
Qed.

(** C1, as the claim reads: after the first three rules, a quantity not
    above the record's own threshold, when the record has one, gives
    low-stock and a quantity above it gives in-stock.  A record with
    quantity 5 and a threshold of 0, far from its expiry date, is above its
    threshold; the store, whose default threshold is 10, classifies it as
    low-stock, where the rules as worded give in-stock. *)
Lemma getItemStatus_zero_threshold :
  let item := Examples.zeroThresholdItem in
  let this := Examples.store [item] in
  let now := Examples.morning in
  Item.quantity item <> 0
  /\ isExpired now (Item.expiryDate item) = false
  /\ isExpiringSoon now (Item.expiryDate item) (expiryWarningDays this)
     = false
  /\ Spec.effectiveThreshold this item = 0
  /\ Spec.effectiveThreshold this item < Item.quantity item
  /\ Spec.classifyStatus this now item = "in-stock"
  /\ getItemStatus this now item = "low-stock"
  /\ ~ (forall (this : InventoryData.t) (now : Z) (item : Item.t),
          getItemStatus this now item = Spec.classifyStatus this now item).
Proof.
  repeat split; try discriminate.
  intros H.
  specialize (H (Examples.store [Examples.zeroThresholdItem])
                Examples.morning Examples.zeroThresholdItem).
  vm_compute in H. discriminate H.
Qed.

(** C1, amended.  [getItemStatus] always returns one of the five status
    names, and it applies its rules in a fixed order of precedence: a
    quantity of 0 gives out-of-stock; otherwise an expired date gives
    expired; otherwise a date that is expiring soon gives expiring;
    otherwise a quantity not above the threshold gives low-stock; otherwise
    the item is in-stock.  The threshold is the record's own when it is
    present and not 0, and the default of the store when the record has
    none or has 0.  In particular an item with quantity 0 that is also
    expired is out-of-stock and not expired, and for every record whose
    threshold is not 0 the status is the one the rules give with the
    record's threshold if present and the default otherwise. *)
Theorem getItemStatus_precedence :
  forall (this : InventoryData.t) (now : Z) (item : Item.t),
    let status := getItemStatus this now item in
    let q := Item.quantity item in
    let expired := isExpired now (Item.expiryDate item) in
    let expiring :=
      isExpiringSoon now (Item.expiryDate item) (expiryWarningDays this) in
    let threshold :=
      match Item.lowStockThreshold item with
      | Some 0 | None => lowStockThreshold this
      | Some v => v
      end in
    In status ["in-stock"; "low-stock"; "out-of-stock"; "expiring"; "expired"]
    /\ (q = 0 -> status = "out-of-stock")
    /\ (q <> 0 -> expired = true -> status = "expired")
    /\ (q <> 0 -> expired = false -> expiring = true -> status = "expiring")
    /\ (q <> 0 -> expired = false -> expiring = false ->
        q <= threshold -> status = "low-stock")
    /\ (q <> 0 -> expired = false -> expiring = false ->
        threshold < q -> status = "in-stock")
    /\ (q = 0 -> expired = true ->
        status = "out-of-stock" /\ status <> "expired")
    /\ (Item.lowStockThreshold item <> Some 0 ->
        status = Spec.classifyStatus this now item).
Proof.
  intros this now item status q expired expiring threshold.
  assert (T : effectiveThreshold this item = threshold).
  { subst threshold. pose proof (effectiveThreshold_cases this item) as C.
    destruct (Item.lowStockThreshold item) as [[| p | p] |]; exact C. }
  assert (S : Item.lowStockThreshold item <> Some 0 ->
              Spec.effectiveThreshold this item = threshold).
  { subst threshold. unfold Spec.effectiveThreshold. intros N.
    destruct (Item.lowStockThreshold item) as [[| p | p] |];
      try reflexivity.
    now elim N. }
  subst status q expired expiring.
  unfold getItemStatus, Spec.classifyStatus. rewrite T.
  destruct (Z.eqb_spec (Item.quantity item) 0) as [Q | Q];
    destruct (isExpired now (Item.expiryDate item));
    destruct (isExpiringSoon now (Item.expiryDate item)
                (expiryWarningDays this));
    destruct (Z.leb_spec (Item.quantity item) threshold);
    cbn [In];
    repeat split; intros; try congruence; try lia; auto 6;
    try (rewrite S by assumption;
         destruct (Z.leb_spec (Item.quantity item) threshold);
         try reflexivity; lia).
Qed.

Lemma getItemStatus_precedence_witness :
  let this := Examples.store [] in
  let item := Examples.sample "1" 0 (Some 10) (Examples.day (-1)) 0 in
  (getItemStatus this Examples.morning item = "out-of-stock" /\
   getItemStatus this Examples.morning item <> "expired")
  /\ getItemStatus this Examples.morning Examples.zeroThresholdItem =
     "low-stock"
  /\ getItemStatus this Examples.morning
       (Examples.sample "2" 5 (Some 3) (Examples.day 400) 0) =
     Spec.classifyStatus this Examples.morning
       (Examples.sample "2" 5 (Some 3) (Examples.day 400) 0).
Proof.
  intros this item.
  pose proof (getItemStatus_precedence this Examples.morning item)
    as (_ & _ & _ & _ & _ & _ & P & _).
  pose proof (getItemStatus_precedence this Examples.morning
                Examples.zeroThresholdItem) as (_ & _ & _ & _ & L & _).
  pose proof (getItemStatus_precedence this Examples.morning
                (Examples.sample "2" 5 (Some 3) (Examples.day 400) 0))
    as (_ & _ & _ & _ & _ & _ & _ & C).
  split; [apply P; reflexivity |].
  split; [apply L; try reflexivity; discriminate |].
  apply C. discriminate.
Defined.

(** C3. For an expiry date that is a calendar date, [getDaysUntilExpiry] is
    the ceiling, in whole days, of the distance from the reference instant to
    the expiry date, and it coincides with the count obtained after the time
    of day of the reference instant has been normalised away: it is the
    difference of the two day numbers, it is the same for any two reference
    instants of one day, and it is negative exactly when the expiry day lies
    before the reference day. *)
Theorem getDaysUntilExpiry_whole_days :
  forall (expiryDate now : Z),
    Spec.isCalendarDate expiryDate ->
    let days := getDaysUntilExpiry now expiryDate in
    msPerDay * (days - 1) < expiryDate - now <= msPerDay * days
    /\ days = Spec.daysUntilExpiry expiryDate now
    /\ days = expiryDate / msPerDay - now / msPerDay
    /\ (forall now' : Z,
          now' / msPerDay = now / msPerDay ->
          getDaysUntilExpiry now' expiryDate = days)
    /\ (days < 0 <-> expiryDate / msPerDay < now / msPerDay).
Proof.
  intros expiryDate now H days.
  assert (D : days = expiryDate / msPerDay - now / msPerDay)
    by now apply getDaysUntilExpiry_day_numbers.
  split; [| split; [| split; [| split]]].
  - apply (ceilDiv_bounds msPerDay msPerDay_pos).
  - rewrite D. unfold Spec.daysUntilExpiry.
    rewrite (ceilDiv_day_numbers msPerDay msPerDay_pos) by exact H.
    now rewrite startOfDay_day_number.
  - exact D.
  - intros now' E. rewrite D, <- E.
    now apply getDaysUntilExpiry_day_numbers.
  - rewrite D. lia.
Qed.

Lemma getDaysUntilExpiry_whole_days_witness :
  Spec.isCalendarDate (Examples.day 3) /\
  getDaysUntilExpiry Examples.morning (Examples.day 3) =
  Spec.daysUntilExpiry (Examples.day 3) Examples.morning.
Proof.
  split.
  - reflexivity.
  - refine (proj1 (proj2 (getDaysUntilExpiry_whole_days
                             (Examples.day 3) Examples.morning _))).
    reflexivity.
Defined.

(** The restriction to calendar dates matters: for an expiry instant at
    midday the count changes in the course of one reference day. *)
Lemma getDaysUntilExpiry_midday_expiry :
  let expiry := Examples.day 3 + 12 * 3600000 in
  getDaysUntilExpiry Examples.morning expiry = 4
  /\ getDaysUntilExpiry (Examples.midnight + 18 * 3600000) expiry = 3.
Proof.
  split; reflexivity.
Qed.

(** C8, as the claim reads: on the expiry day itself a record is expired at
    every reference instant.  At midnight UTC of the expiry day the date is
    neither expired nor expiring soon. *)
Lemma day_zero_midnight_not_expired :
  Spec.isCalendarDate Examples.midnight /\
  getDaysUntilExpiry Examples.midnight Examples.midnight = 0 /\
  isExpiringSoon Examples.midnight Examples.midnight 30 = false /\
  isExpired Examples.midnight Examples.midnight = false /\
  ~ (forall expiryDate now : Z,
       Spec.isCalendarDate expiryDate ->
       getDaysUntilExpiry now expiryDate = 0 ->
       isExpired now expiryDate = true).
Proof.
  repeat split.
  intros H.
  specialize (H Examples.midnight Examples.midnight eq_refl eq_refl).
  discriminate H.
Qed.

(** C8, amended.  [isExpiringSoon] is false whenever the day count is 0.  A
    record whose expiry date is the reference day has day count 0 and is not
    expiring soon; it is expired exactly when the reference instant is later
    than midnight UTC of that day, in which case a record with stock left is
    classified as expired. *)
Theorem day_zero_boundary :
  forall (this : InventoryData.t) (item : Item.t) (now days : Z),
    let expiryDate := Item.expiryDate item in
    (getDaysUntilExpiry now expiryDate = 0 ->
     isExpiringSoon now expiryDate days = false)
    /\ (Spec.isCalendarDate expiryDate ->
        expiryDate / msPerDay = now / msPerDay ->
        getDaysUntilExpiry now expiryDate = 0
        /\ isExpiringSoon now expiryDate days = false
        /\ (isExpired now expiryDate = true <-> 0 < now mod msPerDay)
        /\ (0 < now mod msPerDay -> Item.quantity item <> 0 ->
            getItemStatus this now item = "expired")).
Proof.
  intros this item now days expiryDate.
  assert (Z0 : getDaysUntilExpiry now expiryDate = 0 ->
               isExpiringSoon now expiryDate days = false).
  { intros H. rewrite isExpiringSoon_days, H. apply andb_false_r. }
  split; [exact Z0 |].
  intros C E.
  assert (D : getDaysUntilExpiry now expiryDate = 0).
  { rewrite getDaysUntilExpiry_day_numbers by exact C. lia. }
  assert (X : isExpired now expiryDate = true <-> 0 < now mod msPerDay).
  { unfold isExpired. rewrite Z.ltb_lt.
    pose proof (floor_decompose msPerDay msPerDay_pos now) as [N _].
    pose proof (floor_decompose msPerDay msPerDay_pos expiryDate) as [M _].
    unfold Spec.isCalendarDate in C. rewrite C, E in M. lia. }
  repeat split; auto; try apply X.
  intros T Q. unfold getItemStatus. fold expiryDate.
  apply Z.eqb_neq in Q. rewrite Q.
  apply X in T. now rewrite T.
Qed.

Lemma day_zero_boundary_witness :
  let item := Examples.sample "1" 5 None Examples.midnight 0 in
  getItemStatus (Examples.store [item]) Examples.morning item = "expired".
Proof.
  intros item.
  apply (day_zero_boundary (Examples.store [item]) item Examples.morning 30);
    try reflexivity.
  discriminate.
Defined.

(** ** The stable sort *)

Section SortByRank.
Context {A : Type} (rank : A -> Z).

(** The comparator [(a, b) => rank(b) - rank(a)] orders by rank, largest
    first. *)
Let cmp : A -> A -> Z := fun a b => rank b - rank a.

Lemma insert_Permutation (x : A) (l : list A) :
  Permutation (insert cmp x l) (x :: l).
Proof.
  induction l as [| y l IH]; cbn.
  - apply Permutation_refl.
  - destruct (cmp x y <=? 0).
    + apply Permutation_refl.
    + eapply perm_trans; [apply perm_skip, IH | apply perm_swap].
Qed.

Lemma sort_Permutation (l : list A) : Permutation (sort cmp l) l.
Proof.
  induction l as [| x l IH]; cbn.
  - constructor.
  - eapply perm_trans; [apply insert_Permutation | now apply perm_skip].
Qed.

Lemma insert_sorted (x : A) (l : list A) :
  StronglySorted (descending rank) l -> StronglySorted (descending rank) (insert cmp x l).
Proof.
  induction 1 as [| y l S IH F]; cbn.
  - repeat constructor.
  - unfold cmp at 1. destruct (Z.leb_spec (rank y - rank x) 0) as [L | L].
    + constructor; [now constructor |].
      constructor; [unfold descending; lia |].
      eapply Forall_impl; [| exact F].
      unfold descending. intros; lia.
    + constructor; [exact IH |].
      eapply Permutation_Forall;
        [apply Permutation_sym, insert_Permutation |].
      constructor; [unfold descending; lia | exact F].
Qed.

Lemma sort_sorted (l : list A) : StronglySorted (descending rank) (sort cmp l).
Proof.
  induction l as [| x l IH]; cbn.
  - constructor.
  - now apply insert_sorted.
Qed.

(** Insertion keeps the new element in front of the elements of its own
    rank, and does not disturb the others. *)
Lemma insert_filter_rank (k : Z) (x : A) (l : list A) :
  filter (fun a => rank a =? k) (insert cmp x l) =
  filter (fun a => rank a =? k) (x :: l).
Proof.
  induction l as [| y l IH]; cbn.
  - reflexivity.
  - unfold cmp at 1. destruct (Z.leb_spec (rank y - rank x) 0) as [L | L].
    + reflexivity.
    + cbn. cbn in IH. rewrite IH.
      destruct (Z.eqb_spec (rank x) k), (Z.eqb_spec (rank y) k);
        try reflexivity.
      lia.
Qed.

Lemma sort_stable (k : Z) (l : list A) :
  filter (fun a => rank a =? k) (sort cmp l) =
  filter (fun a => rank a =? k) l.
Proof.
  induction l as [| x l IH]; cbn.
  - reflexivity.
  - rewrite insert_filter_rank. cbn. now rewrite IH.
Qed.

(** A list that is already in descending order is left as it is. *)
Lemma sort_sorted_id (l : list A) :
  StronglySorted (descending rank) l -> sort cmp l = l.
Proof.
  induction 1 as [| x l S IH F]; cbn.
  - reflexivity.
  - rewrite IH. destruct F as [| y l D F]; cbn.
    + reflexivity.
    + unfold cmp. unfold descending in D.
      destruct (Z.leb_spec (rank y - rank x) 0); [reflexivity | lia].
Qed.

Lemma firstn_sorted (R : A -> A -> Prop) (n : nat) (l : list A) :
  StronglySorted R l -> StronglySorted R (firstn n l).
Proof.
  intros S. revert n.
  induction S as [| x l S IH F]; intros [| n]; cbn; try constructor.
  - apply IH.
  - apply Forall_forall. intros y Y.
    rewrite Forall_forall in F. apply F.
    rewrite <- (firstn_skipn n l). apply in_or_app. now left.
Qed.

Lemma sorted_distinct_strict (l : list A) :
  NoDup (map rank l) ->
  StronglySorted (descending rank) l -> StronglySorted (strictlyDescending rank) l.
Proof.
  intros N S. induction S as [| x l S IH F]; cbn in N.
  - constructor.
  - inversion N as [| r rs NI N']; subst.
    constructor; [now apply IH |].
    rewrite Forall_forall in *. intros y Y.
    specialize (F y Y). unfold descending in F. unfold strictlyDescending.
    assert (rank y <> rank x).
    { intros E. apply NI. rewrite <- E. now apply in_map. }
    lia.
Qed.
End SortByRank.

Section SortedBlocks.
Context {A : Type} (rank : A -> Z).

Lemma constant_rank_sorted (k : Z) (l : list A) :
  Forall (fun a => rank a = k) l -> StronglySorted (descending rank) l.
Proof.
  induction 1 as [| x l E F IH]; constructor; [exact IH |].
  eapply Forall_impl; [| exact F].
  unfold descending. intros; lia.
Qed.

(** A block of one rank followed by a block of a lower rank is in
    descending order. *)
Lemma two_blocks_sorted (k1 k2 : Z) (upper lower : list A) :
  k2 <= k1 ->
  Forall (fun a => rank a = k1) upper ->
  Forall (fun a => rank a = k2) lower ->
  StronglySorted (descending rank) (upper ++ lower).
Proof.
  intros K U L. induction U as [| x upper E U IH]; cbn.
  - now apply (constant_rank_sorted k2).
  - constructor; [exact IH |].
    apply Forall_app. split; eapply Forall_impl; try eassumption;
      unfold descending; intros; cbn in *; lia.
Qed.
End SortedBlocks.

Lemma Forall_map_const {A B : Type} (P : B -> Prop) (f : A -> B)
  (l : list A) :
  (forall a, P (f a)) -> Forall P (map f l).
Proof.
  intros H. induction l; cbn; constructor; auto.
Qed.

Lemma map_const_repeat {A B : Type} (c : B) (l : list A) :
  map (fun _ => c) l = repeat c (List.length l).
Proof.
  induction l; cbn; congruence.
Qed.

(** ** Alert engine *)

(** The alerts are generated with the high priorities first, so the array
    handed to the sort is already in order. *)
Lemma criticalItems_sorted (this : InventoryData.t) (now : Z) :
  StronglySorted (descending (fun a => priorityOrder (Alert.priority a)))
    (criticalItems this now).
Proof.
  unfold criticalItems. rewrite !app_assoc.
  apply (two_blocks_sorted _ 3 2); [lia | |].
  - repeat (apply Forall_app; split); now apply Forall_map_const.
  - now apply Forall_map_const.
Qed.

(** C4. The list returned by [getCriticalAlerts] is ordered by priority,
    highest first, and alerts of equal priority keep the order in which
    they were generated: all out-of-stock alerts, then critical-low, then
    expired, then expiring-soon.  With one expiring-soon (3 days), one
    expired and one out-of-stock record in the store the result is
    out-of-stock, expired, expiring-soon. *)
Theorem getCriticalAlerts_ranked :
  forall (this : InventoryData.t) (now : Z),
    let alerts := getCriticalAlerts this now in
    let rank := fun a => priorityOrder (Alert.priority a) in
    StronglySorted (descending rank) alerts
    /\ Permutation alerts (criticalItems this now)
    /\ (forall k : Z,
          filter (fun a => rank a =? k) alerts =
          filter (fun a => rank a =? k) (criticalItems this now))
    /\ alerts = criticalItems this now
    /\ (exists n1 n2 n3 n4 : nat,
          map Alert.type alerts =
          repeat "out-of-stock" n1 ++ repeat "critical-low" n2 ++
          repeat "expired" n3 ++ repeat "expiring-soon" n4
          /\ map Alert.priority alerts =
             repeat high (n1 + n2 + n3) ++ repeat medium n4)
    /\ map (fun a => (Alert.type a, Item.id (Alert.item a)))
         (getCriticalAlerts Examples.alertStore Examples.morning) =
       [("out-of-stock", "a"); ("expired", "b"); ("expiring-soon", "c")].
Proof.
  intros this now alerts rank.
  assert (E : alerts = criticalItems this now).
  { apply (sort_sorted_id rank), criticalItems_sorted. }
  split; [apply (sort_sorted rank) |].
  split; [apply (sort_Permutation rank) |].
  split; [intros k; apply (sort_stable rank) |].
  split; [exact E |].
  split; [| vm_compute; reflexivity].
  rewrite E. unfold criticalItems, getExpiredItems.
  rewrite !map_app, !map_map. cbn [Alert.type Alert.priority].
  rewrite !map_const_repeat.
  match goal with
  | |- context [repeat "out-of-stock" ?a ++ repeat "critical-low" ?b ++
                repeat "expired" ?c ++ repeat "expiring-soon" ?d] =>
      exists a, b, c, d
  end.
  rewrite !repeat_app, <- !app_assoc.
  split; reflexivity.
Qed.

(** ** Activity feed *)

(** C9. [getRecentActivity] lists the records by [lastUpdated], most recent
    first; records with the same [lastUpdated] keep their order in the
    collection; at most the first 10 are returned.  When the [lastUpdated]
    values are pairwise distinct the dates of the result are strictly
    descending. *)
Theorem getRecentActivity_recent_first :
  forall (this : InventoryData.t),
    let activities := getRecentActivity this in
    let shown := map Activity.item activities in
    exists sortedItems : list Item.t,
      Permutation sortedItems (items this)
      /\ StronglySorted (descending Item.lastUpdated) sortedItems
      /\ (forall d : Z,
            filter (fun item => Item.lastUpdated item =? d) sortedItems =
            filter (fun item => Item.lastUpdated item =? d) (items this))
      /\ shown = firstn 10 sortedItems
      /\ StronglySorted (descending Item.lastUpdated) shown
      /\ List.length activities = Nat.min 10 (List.length (items this))
      /\ Forall (fun a => Activity.date a = Item.lastUpdated (Activity.item a))
           activities
      /\ (NoDup (map Item.lastUpdated (items this)) ->
          StronglySorted (strictlyDescending Item.lastUpdated) shown).
Proof.
  intros this activities shown.
  set (sortedItems :=
         sort (fun a b => Item.lastUpdated b - Item.lastUpdated a)
           (items this)).
  assert (P : Permutation sortedItems (items this))
    by apply (sort_Permutation Item.lastUpdated).
  assert (S : StronglySorted (descending Item.lastUpdated) sortedItems)
    by apply (sort_sorted Item.lastUpdated).
  assert (E : shown = firstn 10 sortedItems).
  { subst shown activities. unfold getRecentActivity.
    rewrite map_map. cbn. apply map_id. }
  exists sortedItems.
  split; [exact P |]. split; [exact S |].
  split; [intros d; apply (sort_stable Item.lastUpdated) |].
  split; [exact E |].
  split; [rewrite E; now apply firstn_sorted |].
  split.
  { subst activities. unfold getRecentActivity.
    rewrite length_map, length_firstn. fold sortedItems.
    now rewrite (Permutation_length P). }
  split.
  { subst activities. unfold getRecentActivity.
    now apply Forall_map_const. }
  intros N. rewrite E. apply firstn_sorted.
  apply sorted_distinct_strict; [| exact S].
  eapply Permutation_NoDup; [| exact N].
  apply Permutation_map, Permutation_sym, P.
Qed.

Lemma getRecentActivity_recent_first_witness :
  NoDup (map Item.lastUpdated Examples.fiveItems) /\
  map (fun a => Item.id (Activity.item a))
    (getRecentActivity (Examples.store Examples.fiveItems)) =
  ["2"; "4"; "1"; "5"; "3"] /\
  StronglySorted (strictlyDescending Item.lastUpdated)
    (map Activity.item
       (getRecentActivity (Examples.store Examples.fiveItems))).
Proof.
  assert (N : NoDup (map Item.lastUpdated Examples.fiveItems)).
  { vm_compute.
    repeat (constructor;
            [cbn [In]; intros H; repeat destruct H as [H | H];
             solve [discriminate H | exact H] |]).
    constructor. }
  split; [exact N |]. split; [vm_compute; reflexivity |].
  destruct (getRecentActivity_recent_first
              (Examples.store Examples.fiveItems))
    as (sortedItems & _ & _ & _ & _ & _ & _ & _ & H).
  exact (H N).
Defined.

(** ** Aggregator *)

Lemma getExpiringSoonItems_not_expired (this : InventoryData.t) (now : Z) :
  Forall (fun item => isExpired now (Item.expiryDate item) = false)
    (getExpiringSoonItems this now).
Proof.
  unfold getExpiringSoonItems. apply Forall_forall. intros item H.
  apply filter_In in H as [_ H]. apply andb_true_iff in H as [_ H].
  now apply negb_true_iff.
Qed.

(** The four counters always add up to the total plus the number of records
    with quantity 0: [inStock] is what is left of [total] after [lowStock]
    and [expired] only. *)
Lemma getStats_sum (this : InventoryData.t) (now : Z) :
  let stats := getStats this now in
  Stats.inStock stats + Stats.lowStock stats + Stats.expired stats +
  Stats.outOfStock stats =
  Stats.total stats + Stats.outOfStock stats.
Proof. cbn. lia. Qed.

(** C2. The counters of [getStats] are meant to split the collection:
    inStock + lowStock + expired + outOfStock = total.  On a store holding a
    single record with quantity 0 the record is counted both as in stock
    and as out of stock and the sum is 2 for a total of 1; on a store
    holding a single record that is low on stock and expired, [inStock] is
    -1. *)
Theorem getStats_buckets_not_a_partition :
  let one := getStats (Examples.store [Examples.outOfStockItem])
               Examples.morning in
  let two := getStats (Examples.store [Examples.lowExpiredItem])
               Examples.morning in
  one = Stats.mk 1 0 0 0 1 1
  /\ Stats.inStock one + Stats.lowStock one + Stats.expired one +
     Stats.outOfStock one <> Stats.total one
  /\ two = Stats.mk 1 1 0 1 (-1) 0
  /\ Stats.inStock two < 0.
Proof.
  vm_compute. repeat split; discriminate.
Qed.

(** C6, as the claim reads: the low-stock filter returns exactly the records
    whose status is low-stock.  A record that is low on stock and expired
    has status expired, and is returned by the low-stock filter; a record
    with quantity 0 that is expired has status out-of-stock, and is returned
    by the expired filter. *)
Lemma filterByStatus_not_by_status :
  let this := Examples.store [Examples.lowExpiredItem] in
  let that :=
    Examples.store [Examples.sample "y" 0 None (Examples.day (-1)) 0] in
  let now := Examples.morning in
  filterByStatus "low-stock" this now <>
  filter (fun item => String.eqb (getItemStatus this now item) "low-stock")
    (items this)
  /\ filterByStatus "expired" that now <>
     filter (fun item => String.eqb (getItemStatus that now item) "expired")
       (items that).
Proof.
  vm_compute. split; discriminate.
Qed.

(** C6, amended.  The out-of-stock filter returns exactly the records whose
    status is out-of-stock and, when no threshold in use is negative, the
    in-stock filter returns exactly the records whose status is in-stock.
    The low-stock filter returns every record with
    0 < quantity <= threshold, whatever its expiry date: these are the
    records with a non-negative quantity whose status is low-stock,
    together with the records in this range that are expired or expiring
    soon; a record with a negative quantity is not returned.  The expired
    filter returns every expired record: those whose status is expired, and
    the expired ones with quantity 0.  The expiring filter returns the
    records that are expiring soon and not expired.  The threshold in use
    is the record's own when it is present and not 0, and the default of
    the store otherwise. *)
Theorem filterByStatus_returns :
  forall (this : InventoryData.t) (now : Z),
    let status := getItemStatus this now in
    let expired := fun item => isExpired now (Item.expiryDate item) in
    let expiring := fun item =>
      isExpiringSoon now (Item.expiryDate item) (expiryWarningDays this) in
    let inRange := fun item =>
      (0 <? Item.quantity item) &&
      (Item.quantity item <=? effectiveThreshold this item) in
    filterByStatus "out-of-stock" this now =
    filter (fun item => String.eqb (status item) "out-of-stock") (items this)
    /\ (Forall (fun item => 0 <= effectiveThreshold this item) (items this) ->
        filterByStatus "in-stock" this now =
        filter (fun item => String.eqb (status item) "in-stock") (items this))
    /\ (Forall (fun item => 0 <= Item.quantity item) (items this) ->
        filterByStatus "low-stock" this now =
        filter (fun item =>
                  String.eqb (status item) "low-stock" ||
                  (inRange item && (expired item || expiring item)))
          (items this))
    /\ filterByStatus "low-stock" this now = filter inRange (items this)
    /\ filterByStatus "expired" this now =
       filter (fun item =>
                 String.eqb (status item) "expired" ||
                 ((Item.quantity item =? 0) && expired item))
         (items this)
    /\ filterByStatus "expired" this now = filter expired (items this)
    /\ filterByStatus "expiring" this now =
       filter (fun item => expiring item && negb (expired item)) (items this)
    /\ filterByStatus "low-stock" this now =
       filter (fun item =>
                 ((0 <=? Item.quantity item) &&
                  String.eqb (status item) "low-stock") ||
                 (inRange item && (expired item || expiring item)))
         (items this)
    /\ (forall item,
          effectiveThreshold this item =
          match Item.lowStockThreshold item with
          | Some 0 | None => lowStockThreshold this
          | Some v => v
          end).
Proof.
  intros this now status expired expiring inRange.
  subst status expired expiring inRange.
  split; [| split; [| split; [| split; [| split; [| split; [| split;
    [| split]]]]]]];
    try (unfold filterByStatus, getItemStatus;
         cbn [String.eqb Ascii.eqb Bool.eqb]).
  - apply filter_ext. intros item.
    destruct (Item.quantity item =? 0); [reflexivity |].
    repeat match goal with |- context [if ?c then _ else _] =>
      destruct c end; reflexivity.
  - intros T. apply filter_ext_in. intros item I.
    rewrite Forall_forall in T. specialize (T item I).
    rewrite Z.gtb_ltb.
    destruct (Z.eqb_spec (Item.quantity item) 0),
      (Z.ltb_spec (effectiveThreshold this item) (Item.quantity item)),
      (Z.leb_spec (Item.quantity item) (effectiveThreshold this item)),
      (isExpired now (Item.expiryDate item)),
      (isExpiringSoon now (Item.expiryDate item) (expiryWarningDays this));
      try reflexivity; lia.
  - intros T. apply filter_ext_in. intros item I.
    rewrite Forall_forall in T. specialize (T item I).
    rewrite Z.gtb_ltb.
    destruct (Z.eqb_spec (Item.quantity item) 0),
      (Z.ltb_spec 0 (Item.quantity item)),
      (Z.leb_spec (Item.quantity item) (effectiveThreshold this item)),
      (isExpired now (Item.expiryDate item)),
      (isExpiringSoon now (Item.expiryDate item) (expiryWarningDays this));
      try reflexivity; lia.
  - apply filter_ext. intros item.
    rewrite Z.gtb_ltb. apply andb_comm.
  - apply filter_ext. intros item.
    destruct (Z.eqb_spec (Item.quantity item) 0),
      (isExpired now (Item.expiryDate item)),
      (isExpiringSoon now (Item.expiryDate item) (expiryWarningDays this)),
      (Z.leb_spec (Item.quantity item) (effectiveThreshold this item));
      reflexivity.
  - reflexivity.
  - reflexivity.
  - apply filter_ext. intros item.
    rewrite Z.gtb_ltb.
    destruct (Z.eqb_spec (Item.quantity item) 0),
      (Z.ltb_spec 0 (Item.quantity item)),
      (Z.leb_spec 0 (Item.quantity item)),
      (Z.leb_spec (Item.quantity item) (effectiveThreshold this item)),
      (isExpired now (Item.expiryDate item)),
      (isExpiringSoon now (Item.expiryDate item) (expiryWarningDays this));
      try reflexivity; lia.
  - intros item. pose proof (effectiveThreshold_cases this item) as C.
    destruct (Item.lowStockThreshold item) as [[| p | p] |]; exact C.
Qed.

Lemma filterByStatus_returns_witness :
  let this := Examples.store Examples.mixedItems in
  let now := Examples.morning in
  Forall (fun item => 0 <= effectiveThreshold this item) (items this)
  /\ Forall (fun item => 0 <= Item.quantity item) (items this)
  /\ map Item.id (filterByStatus "in-stock" this now) = ["i"]
  /\ filterByStatus "in-stock" this now =
     filter (fun item => String.eqb (getItemStatus this now item) "in-stock")
       (items this)
  /\ map Item.id (filterByStatus "low-stock" this now) = ["l"; "x"; "e"]
  /\ map Item.id
       (filter (fun item =>
                  String.eqb (getItemStatus this now item) "low-stock")
          (items this)) = ["l"]
  /\ filterByStatus "low-stock" this now =
     filter (fun item =>
               String.eqb (getItemStatus this now item) "low-stock" ||
               ((0 <? Item.quantity item) &&
                (Item.quantity item <=? effectiveThreshold this item) &&
                (isExpired now (Item.expiryDate item) ||
                 isExpiringSoon now (Item.expiryDate item)
                   (expiryWarningDays this))))
       (items this)
  /\ map Item.id (filterByStatus "expired" this now) = ["x"; "b"; "y"]
  /\ map Item.id (filterByStatus "expiring" this now) = ["e"; "c"].
Proof.
  intros this now.
  assert (T : Forall (fun item => 0 <= effectiveThreshold this item)
                (items this)) by (repeat constructor; discriminate).
  assert (Q : Forall (fun item => 0 <= Item.quantity item) (items this))
    by (repeat constructor; discriminate).
  pose proof (filterByStatus_returns this now) as (_ & I & L & _).
  split; [exact T |]. split; [exact Q |].
  split; [vm_compute; reflexivity |].
  split; [exact (I T) |].
  split; [vm_compute; reflexivity |].
  split; [vm_compute; reflexivity |].
  split; [exact (L Q) |].
  split; vm_compute; reflexivity.
Defined.

(** ** Search *)

Lemma includes_empty (t : string) :
  includes EmptyString t = true -> t = EmptyString.
Proof.
  destruct t; cbn; [reflexivity | discriminate].
Qed.

Lemma includes_empty_term (s : string) : includes s EmptyString = true.
Proof.
  destruct s; reflexivity.
Qed.

(** When every record carries a batch number the callback of [searchItems]
    never throws and computes [anyFieldMatches]. *)
Lemma searchMatch_with_batchNumber (searchTerm : string) (item : Item.t) :
  Item.batchNumber item <> None ->
  searchMatch searchTerm item = Normal (Spec.anyFieldMatches searchTerm item).
Proof.
  unfold searchMatch, Spec.anyFieldMatches. intros B.
  destruct (includes (toLowerCase (Item.name item)) searchTerm) eqn:N;
    [reflexivity |].
  destruct (includes (toLowerCase (Item.category item)) searchTerm);
    [reflexivity |].
  destruct (Item.batchNumber item) as [batch |]; [| contradiction].
  destruct (includes (toLowerCase batch) searchTerm); [reflexivity |].
  destruct (Item.description item) as [[| c d] |]; cbn [orb]; try reflexivity.
  cbn [toLowerCase].
  destruct (includes EmptyString searchTerm) eqn:E; [| reflexivity].
  apply includes_empty in E. subst searchTerm.
  now rewrite includes_empty_term in N.
Qed.

Lemma searchItems_with_batchNumbers (query : string) (this : InventoryData.t) :
  Forall (fun item => Item.batchNumber item <> None) (items this) ->
  searchItems query this =
  Normal (filter (Spec.anyFieldMatches (toLowerCase query)) (items this)).
Proof.
  unfold searchItems. induction 1 as [| item l B F IH]; cbn.
  - reflexivity.
  - rewrite (searchMatch_with_batchNumber _ _ B), IH. reflexivity.
Qed.

(** C7. [searchItems] is meant never to fail on a missing optional field.
    A record without a description is searched without failure, but on a
    record without a batch number whose name and category do not contain the
    query the call throws. *)
Theorem searchItems_missing_batchNumber :
  searchItems "amox" (Examples.store [Examples.noDescriptionItem]) = Normal []
  /\ searchItems "MASK" (Examples.store [Examples.noBatchItem]) =
     Normal [Examples.noBatchItem]
  /\ searchItems "amox" (Examples.store [Examples.noBatchItem]) = TypeError.
Proof.
  repeat split; vm_compute; reflexivity.
Qed.

(** ** Record store *)

Section StoreUpdates.
Context {B : Type}.

Lemma findIndex_nth_error {A : Type} (p : A -> bool) (l : list A) (n : nat) :
  findIndex p l = Some n ->
  exists x, nth_error l n = Some x /\ p x = true.
Proof.
  revert n. induction l as [| y l IH]; cbn; intros n H; [discriminate |].
  destruct (p y) eqn:P.
  - injection H as <-. now exists y.
  - destruct (findIndex p l) as [m |]; [| discriminate].
    injection H as <-. cbn. now apply IH.
Qed.

Lemma setIndex_Forall {A : Type} (P : A -> Prop) (n : nat) (x : A)
  (l : list A) :
  P x -> Forall P l -> Forall P (setIndex n x l).
Proof.
  intros X F. revert n.
  induction F as [| y l Y F IH]; intros [| n]; cbn; constructor; auto.
Qed.

(** Overwriting an element with one that has the same image under [f]
    leaves the images unchanged. *)
Lemma setIndex_map {A : Type} (f : A -> B) (n : nat) (x old : A)
  (l : list A) :
  nth_error l n = Some old -> f x = f old ->
  map f (setIndex n x l) = map f l.
Proof.
  revert n. induction l as [| y l IH]; intros [| n] H E; cbn in *;
    try discriminate.
  - injection H as ->. now rewrite E.
  - f_equal. now apply IH.
Qed.
End StoreUpdates.

(** What [updateItem] does to the collection: nothing when no record has
    the id, and otherwise the first record with that id is replaced by its
    merge with the payload. *)
Lemma updateItem_cases (id : string) (updates : Updates.t) (now : Z)
  (this : InventoryData.t) :
  updateItem id updates now this = (None, this)
  \/ exists (index : nat) (old : Item.t),
       nth_error (items this) index = Some old
       /\ Item.id old = id
       /\ updateItem id updates now this =
          (Some (merge old updates now),
           InventoryData.mk
             (setIndex index (merge old updates now) (items this))
             (lowStockThreshold this) (expiryWarningDays this)).
Proof.
  unfold updateItem.
  destruct (findIndex _ (items this)) as [index |] eqn:F; [| now left].
  apply findIndex_nth_error in F as (old & N & P).
  right. exists index, old.
  split; [exact N |]. split; [now apply String.eqb_eq |].
  now rewrite N.
Qed.

Lemma updateItem_Forall (P : Item.t -> Prop) (id : string)
  (updates : Updates.t) (now : Z) (this : InventoryData.t) :
  (forall old, In old (items this) -> P old -> P (merge old updates now)) ->
  Forall P (items this) ->
  Forall P (items (snd (updateItem id updates now this))).
Proof.
  intros M F.
  destruct (updateItem_cases id updates now this)
    as [E | (index & old & N & _ & E)]; rewrite E; cbn; [exact F |].
  apply setIndex_Forall; [| exact F].
  pose proof (nth_error_In _ _ N) as I.
  apply M; [exact I |]. rewrite Forall_forall in F. now apply F.
Qed.

Lemma updateItem_result (id : string) (updates : Updates.t) (now : Z)
  (this : InventoryData.t) (new : Item.t) :
  fst (updateItem id updates now this) = Some new ->
  exists old, In old (items this) /\ Item.id old = id
              /\ new = merge old updates now.
Proof.
  destruct (updateItem_cases id updates now this)
    as [E | (index & old & N & I & E)]; rewrite E; cbn; [discriminate |].
  intros H. injection H as <-. exists old.
  split; [now apply (nth_error_In _ index) | now split].
Qed.

(** C5, as the claim reads: every mutating operation keeps a non-negative
    quantity non-negative.  [updateItem] with the payload [{ quantity: -5 }]
    stores -5. *)
Lemma updateItem_stores_negative_quantity :
  let this := Examples.store [Examples.sample "1" 5 None (Examples.day 400) 0] in
  let this' :=
    snd (updateItem "1" Examples.negativeQuantity Examples.morning this) in
  Spec.quantitiesNonNegative this
  /\ map Item.quantity (items this') = [-5]
  /\ ~ Spec.quantitiesNonNegative this'.
Proof.
  split; [repeat constructor; discriminate |].
  split; [reflexivity |].
  intros H. inversion H as [| item l Q F]; subst.
  vm_compute in Q. now apply Q.
Qed.

(** C5, amended.  In a store whose quantities are all non-negative,
    [updateQuantity] and [decreaseQuantity] leave every quantity
    non-negative: the quantity they write is the requested one, or 0 when
    that is negative.  [addItem] and [updateItem] write the quantity of
    their payload as it is, and keep the quantities non-negative when that
    quantity, if there is one, is non-negative. *)
Theorem quantity_stays_non_negative :
  forall (this : InventoryData.t) (now : Z) (id newId : string)
         (newQuantity amount : Z) (itemData : Item.t) (updates : Updates.t),
    Spec.quantitiesNonNegative this ->
    Spec.quantitiesNonNegative (snd (updateQuantity id newQuantity now this))
    /\ (forall item,
          fst (updateQuantity id newQuantity now this) = Some item ->
          Item.quantity item = Z.max 0 newQuantity)
    /\ Spec.quantitiesNonNegative (snd (decreaseQuantity id amount now this))
    /\ (forall old item,
          getItemById this id = Some old ->
          fst (decreaseQuantity id amount now this) = Some item ->
          Item.quantity item = Z.max 0 (Item.quantity old - amount))
    /\ (0 <= Item.quantity itemData ->
        Spec.quantitiesNonNegative (snd (addItem itemData newId now this)))
    /\ ((forall q, Updates.quantity updates = Some q -> 0 <= q) ->
        Spec.quantitiesNonNegative (snd (updateItem id updates now this))).
Proof.
  intros this now id newId newQuantity amount itemData updates Q.
  assert (U : forall q,
             Spec.quantitiesNonNegative (snd (updateQuantity id q now this))).
  { intros q. apply updateItem_Forall; [| exact Q].
    intros old _ _. cbn. lia. }
  assert (R : forall q item,
             fst (updateQuantity id q now this) = Some item ->
             Item.quantity item = Z.max 0 q).
  { intros q item H. apply updateItem_result in H as (old & _ & _ & ->).
    reflexivity. }
  split; [apply U |]. split; [apply R |].
  split.
  { unfold decreaseQuantity.
    destruct (getItemById this id); [apply U | exact Q]. }
  split.
  { intros old item G. unfold decreaseQuantity. rewrite G. apply R. }
  split.
  { intros I. unfold Spec.quantitiesNonNegative. cbn.
    apply Forall_app. split; [exact Q |]. now repeat constructor. }
  intros P. apply updateItem_Forall; [| exact Q].
  intros old _ O. cbn.
  destruct (Updates.quantity updates) as [q |]; cbn; [now apply P | exact O].
Qed.

Lemma quantity_stays_non_negative_witness :
  let this := Examples.store [Examples.sample "1" 5 None (Examples.day 400) 0] in
  Spec.quantitiesNonNegative this
  /\ Spec.quantitiesNonNegative
       (snd (decreaseQuantity "1" 8 Examples.morning this))
  /\ map Item.quantity
       (items (snd (decreaseQuantity "1" 8 Examples.morning this))) = [0]
  /\ Spec.quantitiesNonNegative
       (snd (updateItem "1" Examples.renamed Examples.morning this)).
Proof.
  intros this.
  assert (Q : Spec.quantitiesNonNegative this)
    by (repeat constructor; discriminate).
  pose proof (quantity_stays_non_negative this Examples.morning "1" "2" 0 8
                (Examples.sample "2" 1 None 0 0) Examples.renamed Q)
    as (_ & _ & D & _ & _ & U).
  split; [exact Q |]. split; [exact D |]. split; [reflexivity |].
  apply U. intros q E. injection E as <-. discriminate.
Defined.

(** C10, as the claim reads: whatever the payload, [updateItem] leaves [id]
    and [dateAdded] as they were.  A payload that carries these two fields
    overwrites them. *)
Lemma updateItem_overwrites_id :
  let this := Examples.store [Examples.sample "1" 5 None (Examples.day 400) 0] in
  let this' :=
    snd (updateItem "1" Examples.newIdentity Examples.morning this) in
  map Item.id (items this) = ["1"]
  /\ map Item.id (items this') = ["99"]
  /\ map Item.dateAdded (items this) = [Examples.day (-100)]
  /\ map Item.dateAdded (items this') = [Examples.day 0]
  /\ map Item.id (items this') <> map Item.id (items this).
Proof.
  repeat split; discriminate.
Qed.

(** C10, amended.  [updateItem] with a payload that carries neither [id] nor
    [dateAdded] leaves the [id] and the [dateAdded] of every record as they
    were, and the record it returns has the requested id.  [addItem]
    appends one record, whose [id] is the generated one and whose
    [dateAdded] is the current date, whatever the payload holds in these
    fields, and leaves the records already stored untouched. *)
Theorem id_and_dateAdded_preserved :
  forall (this : InventoryData.t) (now : Z) (id newId : string)
         (updates : Updates.t) (itemData : Item.t),
    (Updates.id updates = None ->
     Updates.dateAdded updates = None ->
     let this' := snd (updateItem id updates now this) in
     map Item.id (items this') = map Item.id (items this)
     /\ map Item.dateAdded (items this') = map Item.dateAdded (items this)
     /\ (forall new,
           fst (updateItem id updates now this) = Some new ->
           Item.id new = id /\ Item.lastUpdated new = today now))
    /\ (let newItem := fst (addItem itemData newId now this) in
        let this' := snd (addItem itemData newId now this) in
        items this' = items this ++ [newItem]
        /\ Item.id newItem = newId
        /\ Item.dateAdded newItem = today now
        /\ Item.lastUpdated newItem = today now).
Proof.
  intros this now id newId updates itemData.
  split; [| now cbn].
  intros I D this'.
  assert (M : forall old,
             Item.id (merge old updates now) = Item.id old
             /\ Item.dateAdded (merge old updates now) = Item.dateAdded old).
  { intros old. cbn. now rewrite I, D. }
  split; [| split].
  - subst this'.
    destruct (updateItem_cases id updates now this)
      as [E | (index & old & N & _ & E)]; rewrite E; cbn; [reflexivity |].
    apply (setIndex_map _ _ _ old); [exact N | apply M].
  - subst this'.
    destruct (updateItem_cases id updates now this)
      as [E | (index & old & N & _ & E)]; rewrite E; cbn; [reflexivity |].
    apply (setIndex_map _ _ _ old); [exact N | apply M].
  - intros new H. apply updateItem_result in H as (old & _ & O & ->).
    split; [| reflexivity]. now rewrite (proj1 (M old)).
Qed.

Lemma id_and_dateAdded_preserved_witness :
  let this := Examples.store [Examples.sample "1" 5 None (Examples.day 400) 0] in
  let this' := snd (updateItem "1" Examples.renamed Examples.morning this) in
  map Item.name (items this') = ["Renamed"]
  /\ map Item.id (items this') = map Item.id (items this)
  /\ map Item.dateAdded (items this') = map Item.dateAdded (items this).
Proof.
  intros this this'.
  split; [reflexivity |].
  pose proof (proj1 (id_and_dateAdded_preserved this Examples.morning "1" "2"
                       Examples.renamed (Examples.sample "2" 1 None 0 0))
                eq_refl eq_refl) as (I & D & _).
  split; [exact I | exact D].
Defined.

(** * Further properties of the code *)

(** ** Looking records up by id *)

Section FirstMatch.
Context {A : Type} (p : A -> bool).

(** [findIndex] splits the array at the first element that satisfies the
    test. *)
Lemma findIndex_split (l : list A) (n : nat) :
  findIndex p l = Some n ->
  exists pre x post,
    l = pre ++ x :: post /\ List.length pre = n /\ p x = true
    /\ Forall (fun y => p y = false) pre.
Proof.
  revert n. induction l as [| y l IH]; cbn; intros n H; [discriminate |].
  destruct (p y) eqn:P.
  - injection H as <-. exists [], y, l. repeat split; auto.
  - destruct (findIndex p l) as [m |]; [| discriminate].
    injection H as <-.
    destruct (IH m eq_refl) as (pre & x & post & -> & L & X & F).
    exists (y :: pre), x, post. cbn. repeat split; auto.
Qed.

Lemma findIndex_None (l : list A) :
  findIndex p l = None -> Forall (fun y => p y = false) l.
Proof.
  induction l as [| y l IH]; cbn; intros H; [constructor |].
  destruct (p y) eqn:P; [discriminate |].
  destruct (findIndex p l); [discriminate |]. constructor; auto.
Qed.

Lemma findIndex_app_first (pre post : list A) (x : A) :
  Forall (fun y => p y = false) pre -> p x = true ->
  findIndex p (pre ++ x :: post) = Some (List.length pre).
Proof.
  intros F X. induction F as [| y pre Y F IH]; cbn.
  - now rewrite X.
  - now rewrite Y, IH.
Qed.

Lemma find_app_none (pre post : list A) :
  Forall (fun y => p y = false) pre -> find p (pre ++ post) = find p post.
Proof.
  induction 1 as [| y pre Y F IH]; cbn; [reflexivity |]. now rewrite Y.
Qed.

Lemma find_none_Forall (l : list A) :
  Forall (fun y => p y = false) l -> find p l = None.
Proof.
  induction 1 as [| y l Y F IH]; cbn; [reflexivity |]. now rewrite Y.
Qed.

Lemma find_None_Forall (l : list A) :
  find p l = None -> Forall (fun y => p y = false) l.
Proof.
  induction l as [| y l IH]; cbn; intros H; [constructor |].
  destruct (p y) eqn:P; [discriminate |]. constructor; auto.
Qed.

Lemma find_split (l : list A) (x : A) :
  find p l = Some x ->
  exists pre post,
    l = pre ++ x :: post /\ p x = true /\ Forall (fun y => p y = false) pre.
Proof.
  induction l as [| y l IH]; cbn; intros H; [discriminate |].
  destruct (p y) eqn:P.
  - injection H as <-. exists [], l. repeat split; auto.
  - destruct (IH H) as (pre & post & -> & X & F).
    exists (y :: pre), post. repeat split; auto.
Qed.

Lemma nth_error_middle (pre post : list A) (x : A) :
  nth_error (pre ++ x :: post) (List.length pre) = Some x.
Proof.
  induction pre; cbn; auto.
Qed.

Lemma setIndex_middle (pre post : list A) (x y : A) :
  setIndex (List.length pre) y (pre ++ x :: post) = pre ++ y :: post.
Proof.
  induction pre; cbn; congruence.
Qed.

Lemma removeIndex_middle (pre post : list A) (x : A) :
  removeIndex (List.length pre) (pre ++ x :: post) = pre ++ post.
Proof.
  induction pre; cbn; congruence.
Qed.
End FirstMatch.

Lemma getItemById_split (this : InventoryData.t) (id : string)
  (old : Item.t) :
  getItemById this id = Some old ->
  exists pre post,
    items this = pre ++ old :: post /\ Item.id old = id
    /\ Forall (fun y => String.eqb (Item.id y) id = false) pre.
Proof.
  intros H. apply find_split in H as (pre & post & E & X & F).
  exists pre, post. split; [exact E |]. split; [| exact F].
  now apply String.eqb_eq.
Qed.

Lemma getItemById_None (this : InventoryData.t) (id : string) :
  getItemById this id = None ->
  findIndex (fun item => String.eqb (Item.id item) id) (items this) = None.
Proof.
  intros H. apply find_None_Forall in H.
  destruct (findIndex _ (items this)) as [n |] eqn:F; [| reflexivity].
  apply findIndex_split in F as (pre & x & post & E & _ & X & _).
  rewrite E in H. apply Forall_app in H as [_ H].
  inversion H as [| y l Y _]; subst. congruence.
Qed.

Lemma updateItem_found (this : InventoryData.t) (id : string)
  (updates : Updates.t) (now : Z) (pre post : list Item.t) (old : Item.t) :
  items this = pre ++ old :: post -> Item.id old = id ->
  Forall (fun y => String.eqb (Item.id y) id = false) pre ->
  updateItem id updates now this =
  (Some (merge old updates now),
   InventoryData.mk (pre ++ merge old updates now :: post)
     (lowStockThreshold this) (expiryWarningDays this)).
Proof.
  intros E I F. unfold updateItem. rewrite E.
  rewrite (findIndex_app_first _ pre post old F)
    by now apply String.eqb_eq.
  now rewrite nth_error_middle, setIndex_middle.
Qed.

Lemma deleteItem_found (this : InventoryData.t) (id : string)
  (pre post : list Item.t) (old : Item.t) :
  items this = pre ++ old :: post -> Item.id old = id ->
  Forall (fun y => String.eqb (Item.id y) id = false) pre ->
  deleteItem id this =
  (Some old,
   InventoryData.mk (pre ++ post) (lowStockThreshold this)
     (expiryWarningDays this)).
Proof.
  intros E I F. unfold deleteItem. rewrite E.
  rewrite (findIndex_app_first _ pre post old F)
    by now apply String.eqb_eq.
  now rewrite nth_error_middle, removeIndex_middle.
Qed.

(** Looking an id up in a collection from which records with another id
    were changed or removed gives what it gave before. *)
Lemma find_other_id (id id' : string) (pre post mid : list Item.t) :
  Forall (fun y => String.eqb (Item.id y) id = true) mid ->
  id' <> id ->
  find (fun item => String.eqb (Item.id item) id') (pre ++ mid ++ post) =
  find (fun item => String.eqb (Item.id item) id') (pre ++ post).
Proof.
  intros M N. induction pre as [| y pre IH]; cbn.
  - apply find_app_none. eapply Forall_impl; [| exact M].
    cbn. intros a H. apply String.eqb_eq in H. apply String.eqb_neq.
    congruence.
  - now rewrite IH.
Qed.

(** X1. [deleteItem] removes the first record that has the id, and only
    that one, and returns it: the records before it and after it stay as
    they are and in their order.  When no record has the id it returns
    [null] and the store is unchanged. *)
Theorem deleteItem_removes_first_match :
  forall (this : InventoryData.t) (id : string),
    let result := fst (deleteItem id this) in
    let this' := snd (deleteItem id this) in
    lowStockThreshold this' = lowStockThreshold this
    /\ expiryWarningDays this' = expiryWarningDays this
    /\ match result with
       | Some deleted =>
           exists pre post,
             items this = pre ++ deleted :: post
             /\ items this' = pre ++ post
             /\ Item.id deleted = id
             /\ Forall (fun item => Item.id item <> id) pre
       | None =>
           this' = this
           /\ Forall (fun item => Item.id item <> id) (items this)
       end.
Proof.
  intros this id.
  destruct (getItemById this id) as [old |] eqn:G.
  - apply getItemById_split in G as (pre & post & E & I & F).
    rewrite (deleteItem_found this id pre post old E I F). cbn.
    repeat split. exists pre, post. repeat split; auto.
    eapply Forall_impl; [| exact F]. cbn. intros a H.
    now apply String.eqb_neq.
  - pose proof (find_None_Forall _ _ G) as F.
    unfold deleteItem. rewrite (getItemById_None _ _ G). cbn.
    repeat split.
    eapply Forall_impl; [| exact F]. cbn. intros a H.
    now apply String.eqb_neq.
Qed.

(** X2. When the ids of the store are pairwise distinct, a deleted id can
    no longer be looked up; the lookup of any other id is not affected by
    a deletion, whatever the ids. *)
Theorem deleteItem_then_getItemById :
  forall (this : InventoryData.t) (id : string),
    let this' := snd (deleteItem id this) in
    (NoDup (map Item.id (items this)) -> getItemById this' id = None)
    /\ (forall id', id' <> id -> getItemById this' id' = getItemById this id').
Proof.
  intros this id this'. subst this'.
  destruct (getItemById this id) as [old |] eqn:G.
  - apply getItemById_split in G as (pre & post & E & I & F).
    rewrite (deleteItem_found this id pre post old E I F). cbn.
    unfold getItemById. cbn. rewrite E. split.
    + intros N. rewrite map_app in N. cbn in N.
      apply NoDup_remove_2 in N.
      apply find_none_Forall. apply Forall_app. split; [exact F |].
      apply Forall_forall. intros y Y. apply String.eqb_neq. intros Q.
      apply N, in_or_app. right. rewrite I, <- Q. now apply in_map.
    + intros id' N. symmetry.
      apply (find_other_id id id' pre post [old]); [| exact N].
      repeat constructor. now apply String.eqb_eq.
  - unfold deleteItem. rewrite (getItemById_None _ _ G). cbn.
    split; [intros _; exact G | reflexivity].
Qed.

Lemma deleteItem_then_getItemById_witness :
  let this := Examples.store Examples.fiveItems in
  NoDup (map Item.id (items this))
  /\ getItemById this "3" <> None
  /\ getItemById (snd (deleteItem "3" this)) "3" = None.
Proof.
  intros this.
  assert (N : NoDup (map Item.id (items this))).
  { vm_compute.
    repeat (constructor;
            [cbn [In]; intros H; repeat destruct H as [H | H];
             solve [discriminate H | exact H] |]).
    constructor. }
  split; [exact N |]. split; [discriminate |].
  exact (proj1 (deleteItem_then_getItemById this "3") N).
Defined.

(** X3. After [addItem] the new record is found under the generated id
    when no stored record had that id; when a stored record already has it,
    the lookup keeps returning the older record.  Lookups of other ids are
    not affected. *)
Theorem addItem_then_getItemById :
  forall (this : InventoryData.t) (itemData : Item.t) (newId : string)
         (now : Z),
    let newItem := fst (addItem itemData newId now this) in
    let this' := snd (addItem itemData newId now this) in
    (getItemById this newId = None -> getItemById this' newId = Some newItem)
    /\ (forall old,
          getItemById this newId = Some old ->
          getItemById this' newId = Some old)
    /\ (forall id', id' <> newId ->
          getItemById this' id' = getItemById this id')
    /\ List.length (getAllItems this') = S (List.length (getAllItems this)).
Proof.
  intros this itemData newId now newItem this'.
  subst newItem this'. unfold getItemById, getAllItems. cbn.
  split; [| split; [| split]].
  - intros G. apply find_None_Forall in G.
    rewrite (find_app_none _ _ _ G). cbn. now rewrite String.eqb_refl.
  - intros old G. apply find_split in G as (pre & post & E & X & F).
    rewrite E, <- app_assoc, !(find_app_none _ _ _ F). cbn.
    now rewrite X.
  - intros id' N.
    rewrite <- (app_nil_r (items this)) at 2.
    apply (find_other_id newId id' (items this) [] [_]); [| exact N].
    repeat constructor. cbn. apply String.eqb_refl.
  - rewrite length_app. cbn. lia.
Qed.

Lemma addItem_then_getItemById_witness :
  let this := Examples.store Examples.fiveItems in
  let payload := Examples.sample "1" 9 None 0 0 in
  getItemById this "6" = None
  /\ getItemById (snd (addItem payload "6" Examples.morning this)) "6" =
     Some (fst (addItem payload "6" Examples.morning this))
  /\ option_map Item.quantity
       (getItemById (snd (addItem payload "1" Examples.morning this)) "1") =
     Some 5.
Proof.
  intros this payload.
  split; [reflexivity |]. split.
  - refine (proj1 (addItem_then_getItemById this payload "6"
                     Examples.morning) _).
    reflexivity.
  - pose proof (addItem_then_getItemById this payload "1" Examples.morning)
      as (_ & S & _).
    rewrite (S (Examples.sample "1" 5 None (Examples.day 400)
                  (Examples.day (-3))) eq_refl).
    reflexivity.
Defined.

(** X4. [updateItem] with a payload that carries no id changes the first
    record that has the id into its merge with the payload: the call
    returns the merged record, a lookup of the id then returns it, lookups
    of other ids and the number of records are unchanged.  When no record
    has the id the call returns [null] and leaves the store as it is. *)
Theorem updateItem_then_getItemById :
  forall (this : InventoryData.t) (id : string) (updates : Updates.t)
         (now : Z),
    let result := fst (updateItem id updates now this) in
    let this' := snd (updateItem id updates now this) in
    (getItemById this id = None -> result = None /\ this' = this)
    /\ (forall old,
          getItemById this id = Some old ->
          Updates.id updates = None ->
          result = Some (merge old updates now)
          /\ getItemById this' id = Some (merge old updates now)
          /\ (forall id', id' <> id ->
                getItemById this' id' = getItemById this id')
          /\ List.length (items this') = List.length (items this)).
Proof.
  intros this id updates now result this'. subst result this'.
  split.
  - intros G. unfold updateItem. now rewrite (getItemById_None _ _ G).
  - intros old G U.
    apply getItemById_split in G as (pre & post & E & I & F).
    rewrite (updateItem_found this id updates now pre post old E I F).
    cbn. unfold getItemById. cbn. rewrite E.
    split; [reflexivity |]. split; [| split].
    + rewrite (find_app_none _ _ _ F). cbn. rewrite U. cbn.
      rewrite I. now rewrite String.eqb_refl.
    + intros id' N.
      transitivity (find (fun item => String.eqb (Item.id item) id')
                      (pre ++ post)).
      * apply (find_other_id id id' pre post [_]); [| exact N].
        repeat constructor. cbn. rewrite U. cbn. now apply String.eqb_eq.
      * symmetry. apply (find_other_id id id' pre post [old]); [| exact N].
        repeat constructor. now apply String.eqb_eq.
    + rewrite !length_app. reflexivity.
Qed.

Lemma updateItem_then_getItemById_witness :
  let this := Examples.store Examples.fiveItems in
  let this' :=
    snd (updateItem "4" Examples.renamed Examples.morning this) in
  option_map Item.name (getItemById this' "4") = Some "Renamed"
  /\ fst (updateItem "9" Examples.renamed Examples.morning this) = None.
Proof.
  intros this this'.
  pose proof (updateItem_then_getItemById this "4" Examples.renamed
                Examples.morning) as (_ & U).
  pose proof (updateItem_then_getItemById this "9" Examples.renamed
                Examples.morning) as (M & _).
  split.
  - destruct (U (Examples.sample "4" 5 None (Examples.day 400)
                   (Examples.day (-2))) eq_refl eq_refl) as (_ & L & _).
    subst this'. rewrite L. reflexivity.
  - apply M. reflexivity.
Defined.

Lemma updateItem_lookup (this : InventoryData.t) (id : string)
  (updates : Updates.t) (now : Z) (old : Item.t) :
  getItemById this id = Some old ->
  Updates.id updates = None ->
  getItemById (snd (updateItem id updates now this)) id =
  Some (merge old updates now).
Proof.
  intros G U. apply getItemById_split in G as (pre & post & E & I & F).
  rewrite (updateItem_found this id updates now pre post old E I F).
  unfold getItemById. cbn. rewrite (find_app_none _ _ _ F). cbn.
  rewrite U. cbn. rewrite I. now rewrite String.eqb_refl.
Qed.

(** The quantity found under an id after [updateQuantity]. *)
Lemma updateQuantity_lookup (this : InventoryData.t) (id : string)
  (newQuantity now : Z) (old : Item.t) :
  getItemById this id = Some old ->
  exists new,
    getItemById (snd (updateQuantity id newQuantity now this)) id = Some new
    /\ Item.quantity new = Z.max 0 newQuantity.
Proof.
  intros G. eexists. split.
  - unfold updateQuantity. apply (updateItem_lookup _ _ _ _ old G).
    reflexivity.
  - reflexivity.
Qed.

(** X5. For a stored record with a non-negative quantity and a non-negative
    amount whose sum is a safe integer (at most 2^53 - 1, the range in which
    the additions and subtractions of the language are exact),
    [increaseQuantity] followed by [decreaseQuantity] of the same amount
    restores the quantity.  In the other order the quantity ends at
    max(0, quantity - amount) + amount: it is restored only when the amount
    does not exceed the quantity, because the decrease stops at 0. *)
Theorem increase_decrease_quantity :
  forall (this : InventoryData.t) (id : string) (amount now now' : Z)
         (old : Item.t),
    getItemById this id = Some old ->
    0 <= Item.quantity old ->
    0 <= amount ->
    isSafeInteger (Item.quantity old + amount) ->
    let up := snd (increaseQuantity id amount now this) in
    let upDown := snd (decreaseQuantity id amount now' up) in
    let down := snd (decreaseQuantity id amount now this) in
    let downUp := snd (increaseQuantity id amount now' down) in
    option_map Item.quantity (getItemById upDown id) =
    Some (Item.quantity old)
    /\ option_map Item.quantity (getItemById down id) =
       Some (Z.max 0 (Item.quantity old - amount))
    /\ option_map Item.quantity (getItemById downUp id) =
       Some (Z.max 0 (Item.quantity old - amount) + amount)
    /\ (option_map Item.quantity (getItemById downUp id) =
        Some (Item.quantity old) <-> amount <= Item.quantity old).
Proof.
  intros this id amount now now' old G Q A _ up upDown down downUp.
  assert (U : exists new, getItemById up id = Some new
                          /\ Item.quantity new = Item.quantity old + amount).
  { subst up. unfold increaseQuantity. rewrite G.
    destruct (updateQuantity_lookup this id (Item.quantity old + amount) now
                old G) as (new & L & V).
    exists new. split; [exact L | lia]. }
  assert (D : exists new, getItemById down id = Some new
                          /\ Item.quantity new =
                             Z.max 0 (Item.quantity old - amount)).
  { subst down. unfold decreaseQuantity. rewrite G.
    exact (updateQuantity_lookup this id _ now old G). }
  destruct U as (u & Lu & Vu). destruct D as (d & Ld & Vd).
  assert (UD : option_map Item.quantity (getItemById upDown id) =
               Some (Item.quantity old)).
  { subst upDown. unfold decreaseQuantity. rewrite Lu.
    destruct (updateQuantity_lookup up id (Item.quantity u - amount) now' u Lu)
      as (new & L & V).
    rewrite L. cbn [option_map]. f_equal. lia. }
  assert (DU : option_map Item.quantity (getItemById downUp id) =
               Some (Z.max 0 (Item.quantity old - amount) + amount)).
  { subst downUp. unfold increaseQuantity. rewrite Ld.
    destruct (updateQuantity_lookup down id (Item.quantity d + amount) now' d
                Ld) as (new & L & V).
    rewrite L. cbn [option_map]. f_equal. lia. }
  split; [exact UD |].
  split; [rewrite Ld; cbn [option_map]; rewrite Vd; reflexivity |].
  split; [exact DU |].
  rewrite DU. split.
  - intros H. injection H as H. lia.
  - intros H. f_equal. lia.
Qed.

Lemma increase_decrease_quantity_witness :
  let this := Examples.store Examples.fiveItems in
  let down := snd (decreaseQuantity "2" 8 Examples.morning this) in
  let downUp := snd (increaseQuantity "2" 8 Examples.morning down) in
  option_map Item.quantity (getItemById this "2") = Some 5
  /\ option_map Item.quantity (getItemById downUp "2") = Some (0 + 8).
Proof.
  intros this down downUp.
  split; [reflexivity |].
  refine (proj1 (proj2 (proj2
            (increase_decrease_quantity this "2" 8 Examples.morning
               Examples.morning
               (Examples.sample "2" 5 None (Examples.day 400)
                  (Examples.day (-1))) eq_refl _ _ _))));
    try discriminate.
  split; discriminate.
Defined.



(** ** Search and filters *)

Lemma filterE_TypeError {A : Type} (p : A -> Completion bool) (l : list A) :
  filterE p l = TypeError <-> Exists (fun x => p x = TypeError) l.
Proof.
  induction l as [| x l IH]; cbn.
  - split; [discriminate | intros H; inversion H].
  - destruct (p x) as [b |] eqn:P.
    + destruct (filterE p l) as [r |].
      * split; [discriminate |]. intros H.
        inversion H as [? ? Q | ? ? Q]; subst; [congruence |].
        apply IH in Q. discriminate.
      * split; [| reflexivity]. intros _. apply Exists_cons_tl.
        now apply IH.
    + split; [| reflexivity]. intros _. now apply Exists_cons_hd.
Qed.

Lemma filterE_all (l : list Item.t) (p : Item.t -> Completion bool) :
  Forall (fun x => p x = Normal true) l -> filterE p l = Normal l.
Proof.
  induction 1 as [| x l X F IH]; cbn; [reflexivity |]. now rewrite X, IH.
Qed.

Lemma searchMatch_TypeError (searchTerm : string) (item : Item.t) :
  searchMatch searchTerm item = TypeError <->
  Item.batchNumber item = None
  /\ includes (toLowerCase (Item.name item)) searchTerm = false
  /\ includes (toLowerCase (Item.category item)) searchTerm = false.
Proof.
  unfold searchMatch.
  destruct (includes (toLowerCase (Item.name item)) searchTerm);
    [split; [discriminate | intros (_ & H & _); discriminate] |].
  destruct (includes (toLowerCase (Item.category item)) searchTerm);
    [split; [discriminate | intros (_ & _ & H); discriminate] |].
  destruct (Item.batchNumber item) as [batch |].
  - split; [| intros (H & _); discriminate].
    destruct (includes (toLowerCase batch) searchTerm); [discriminate |].
    destruct (Item.description item) as [[| c d] |]; discriminate.
  - split; auto.
Qed.

(** X7. The empty query matches every record: [searchItems('')] returns the
    whole collection, in its order, and does not fail, also when records
    lack a batch number or a description. *)
Theorem searchItems_empty_query :
  forall (this : InventoryData.t),
    searchItems "" this = Normal (items this).
Proof.
  intros this. unfold searchItems. apply filterE_all.
  apply Forall_forall. intros item _. unfold searchMatch. cbn [toLowerCase].
  now rewrite includes_empty_term.
Qed.

(** X8. [searchItems] fails exactly when the store holds a record without a
    batch number whose name and category both do not contain the
    lower-cased query.  When every record has a batch number it returns, in
    the order of the collection, the records of which the name, the
    category, the batch number or the description contains the query,
    ignoring case. *)
Theorem searchItems_result :
  forall (this : InventoryData.t) (query : string),
    let searchTerm := toLowerCase query in
    (searchItems query this = TypeError <->
     Exists (fun item =>
               Item.batchNumber item = None
               /\ includes (toLowerCase (Item.name item)) searchTerm = false
               /\ includes (toLowerCase (Item.category item)) searchTerm
                  = false)
       (items this))
    /\ (Forall (fun item => Item.batchNumber item <> None) (items this) ->
        searchItems query this =
        Normal (filter (Spec.anyFieldMatches searchTerm) (items this))).
Proof.
  intros this query searchTerm. split.
  - unfold searchItems. fold searchTerm. rewrite filterE_TypeError.
    split; intros H; (eapply Exists_impl; [| exact H]); cbn; intros item;
      apply searchMatch_TypeError.
  - apply searchItems_with_batchNumbers.
Qed.

Lemma searchItems_result_witness :
  let this := Examples.store Examples.fiveItems in
  searchItems "ITEM 3" this =
  Normal [Examples.sample "3" 5 None (Examples.day 400) (Examples.day (-5))].
Proof.
  intros this.
  refine (eq_trans (proj2 (searchItems_result this "ITEM 3") _) _).
  - repeat constructor; discriminate.
  - vm_compute. reflexivity.
Defined.

(** X9. The five named status filters together cover every record with a
    non-negative quantity: such a record is returned by at least one of
    them.  Any other status string returns the whole collection. *)
Theorem filterByStatus_coverage :
  forall (this : InventoryData.t) (now : Z) (item : Item.t) (status : string),
    (In item (items this) ->
     0 <= Item.quantity item ->
     exists s,
       In s ["out-of-stock"; "low-stock"; "expired"; "expiring"; "in-stock"]
       /\ In item (filterByStatus s this now))
    /\ (~ In status
            ["out-of-stock"; "low-stock"; "expired"; "expiring"; "in-stock"] ->
        filterByStatus status this now = items this).
Proof.
  intros this now item status. split.
  - intros I Q.
    destruct (Z.eqb_spec (Item.quantity item) 0) as [Z0 | Z0].
    { exists "out-of-stock". split; [cbn; auto |].
      unfold filterByStatus. cbn [String.eqb Ascii.eqb Bool.eqb].
      apply filter_In. split; [exact I | now apply Z.eqb_eq]. }
    destruct (Z.leb_spec (Item.quantity item) (effectiveThreshold this item))
      as [L | L].
    { exists "low-stock". split; [cbn; auto |].
      unfold filterByStatus. cbn [String.eqb Ascii.eqb Bool.eqb].
      apply filter_In. split; [exact I |].
      apply andb_true_iff. split; [now apply Z.leb_le |].
      apply Z.gtb_lt. lia. }
    destruct (isExpired now (Item.expiryDate item)) eqn:X.
    { exists "expired". split; [cbn; auto |].
      unfold filterByStatus. cbn [String.eqb Ascii.eqb Bool.eqb].
      apply filter_In. now split. }
    destruct (isExpiringSoon now (Item.expiryDate item)
                (expiryWarningDays this)) eqn:S.
    { exists "expiring". split; [cbn; auto 6 |].
      unfold filterByStatus. cbn [String.eqb Ascii.eqb Bool.eqb].
      apply filter_In. split; [exact I |]. now rewrite S, X. }
    exists "in-stock". split; [cbn; auto 6 |].
    unfold filterByStatus. cbn [String.eqb Ascii.eqb Bool.eqb].
    apply filter_In. split; [exact I |]. rewrite S, X.
    rewrite !andb_true_r. apply Z.gtb_lt. lia.
  - intros N. unfold filterByStatus.
    cbn [In] in N.
    repeat match goal with
           | |- context [String.eqb status ?s] =>
               destruct (String.eqb_spec status s) as [E | E];
               [exfalso; apply N; subst; auto 10 | clear E]
           end.
    reflexivity.
Qed.

Lemma filterByStatus_coverage_witness :
  exists s,
    In s ["out-of-stock"; "low-stock"; "expired"; "expiring"; "in-stock"]
    /\ In Examples.lowExpiredItem
         (filterByStatus s (Examples.store [Examples.lowExpiredItem])
            Examples.morning).
Proof.
  refine (proj1 (filterByStatus_coverage
                   (Examples.store [Examples.lowExpiredItem])
                   Examples.morning Examples.lowExpiredItem "") _ _).
  - now left.
  - discriminate.
Defined.

(** ** Counting *)

Section Counting.
Context {A : Type} (p q : A -> bool).

Lemma filter_disjoint_length (l : list A) :
  (forall x, p x = true -> q x = false) ->
  (List.length (filter p l) + List.length (filter q l) <= List.length l)%nat.
Proof.
  intros D. induction l as [| x l IH]; cbn; [lia |].
  specialize (D x).
  destruct (p x), (q x); cbn; try lia; discriminate (D eq_refl).
Qed.

(** Inclusion and exclusion for two tests. *)
Lemma filter_two_tests_count (l : list A) :
  count l - count (filter p l) - count (filter q l) =
  count (filter (fun x => negb (p x) && negb (q x)) l) -
  count (filter (fun x => p x && q x) l).
Proof.
  unfold count. induction l as [| x l IH]; cbn [filter]; [reflexivity |].
  destruct (p x), (q x); cbn [negb andb List.length];
    rewrite ?Nat2Z.inj_succ; lia.
Qed.

Lemma filter_nil_iff (l : list A) :
  filter p l = [] <-> Forall (fun x => p x = false) l.
Proof.
  induction l as [| x l IH]; cbn.
  - split; constructor.
  - destruct (p x) eqn:P.
    + split; [discriminate |]. intros H. inversion H; congruence.
    + rewrite IH. split; [now constructor | now inversion 1].
Qed.
End Counting.

(** ** Statistics *)

(** X10. In the statistics, [lowStock], [expiring], [expired] and
    [outOfStock] are counts of records between 0 and [total]; no record is
    counted both as low on stock and as out of stock, nor both as expiring
    and as expired, so each of these two pairs adds up to at most [total].
    [inStock] is the number of records that are neither low on stock nor
    expired, less the number of records that are both; it is negative only
    when there are records of the latter kind. *)
Theorem getStats_counters :
  forall (this : InventoryData.t) (now : Z),
    let stats := getStats this now in
    let low := fun item =>
      (Item.quantity item <=? effectiveThreshold this item) &&
      (Item.quantity item >? 0) in
    let expired := fun item => isExpired now (Item.expiryDate item) in
    Stats.total stats = Z.of_nat (List.length (items this))
    /\ 0 <= Stats.lowStock stats
    /\ 0 <= Stats.expiring stats
    /\ 0 <= Stats.expired stats
    /\ 0 <= Stats.outOfStock stats
    /\ Stats.lowStock stats + Stats.outOfStock stats <= Stats.total stats
    /\ Stats.expiring stats + Stats.expired stats <= Stats.total stats
    /\ Stats.inStock stats =
       count (filter (fun item => negb (low item) && negb (expired item))
                (items this)) -
       count (filter (fun item => low item && expired item) (items this)).
Proof.
  intros this now stats low expired. subst stats. cbn.
  unfold getLowStockItems, getExpiringSoonItems, getExpiredItems, count.
  repeat split; try apply Nat2Z.is_nonneg.
  - rewrite <- Nat2Z.inj_add. apply inj_le.
    apply filter_disjoint_length. intros item H.
    apply andb_true_iff in H as [_ H]. apply Z.gtb_lt in H.
    apply Z.eqb_neq. lia.
  - rewrite <- Nat2Z.inj_add. apply inj_le.
    apply filter_disjoint_length. intros item H.
    apply andb_true_iff in H as [_ H]. now apply negb_true_iff.
  - apply (filter_two_tests_count low expired).
Qed.

(** ** Alerts *)

Lemma getCriticalAlerts_generated (this : InventoryData.t) (now : Z) :
  getCriticalAlerts this now = criticalItems this now.
Proof.
  apply (sort_sorted_id (fun a => priorityOrder (Alert.priority a))).
  apply criticalItems_sorted.
Qed.

(** The record behind an alert of a given type satisfies the test of that
    type. *)
Lemma criticalItems_of_type (this : InventoryData.t) (now : Z) (a : Alert.t) :
  In a (criticalItems this now) ->
  let item := Alert.item a in
  let days := getDaysUntilExpiry now (Item.expiryDate item) in
  In item (items this)
  /\ (Alert.type a = "out-of-stock" /\ Item.quantity item = 0
      \/ Alert.type a = "critical-low"
         /\ 0 < Item.quantity item <= effectiveThreshold this item / 2
      \/ Alert.type a = "expired"
         /\ isExpired now (Item.expiryDate item) = true
      \/ Alert.type a = "expiring-soon" /\ 0 < days <= 7).
Proof.
  unfold criticalItems, getExpiredItems. intros H.
  repeat (apply in_app_or in H as [H | H]);
    apply in_map_iff in H as (item & <- & H);
    apply filter_In in H as [I H]; cbn; (split; [exact I |]).
  - left. split; [reflexivity | now apply Z.eqb_eq].
  - right; left. split; [reflexivity |].
    apply andb_true_iff in H as [P L].
    apply Z.gtb_lt in P. apply Z.leb_le in L. unfold floorDiv in L. lia.
  - right; right; left. now split.
  - right; right; right. split; [reflexivity |].
    apply andb_true_iff in H as [L P].
    apply Z.gtb_lt in P. apply Z.leb_le in L. lia.
Qed.

Lemma isExpired_days (now expiryDate : Z) :
  isExpired now expiryDate = true -> getDaysUntilExpiry now expiryDate <= 0.
Proof.
  unfold isExpired, getDaysUntilExpiry. intros H. apply Z.ltb_lt in H.
  pose proof (ceilDiv_pos_iff msPerDay msPerDay_pos (expiryDate - now)).
  lia.
Qed.

(** X11. No record raises both an out-of-stock and a critical-low alert,
    and no record raises both an expired and an expiring-soon alert; a
    store of n records therefore never has more than 2n alerts. *)
Theorem getCriticalAlerts_exclusive :
  forall (this : InventoryData.t) (now : Z),
    let alerts := getCriticalAlerts this now in
    (forall a b,
       In a alerts -> In b alerts -> Alert.item a = Alert.item b ->
       ~ (Alert.type a = "out-of-stock" /\ Alert.type b = "critical-low")
       /\ ~ (Alert.type a = "expired" /\ Alert.type b = "expiring-soon"))
    /\ (List.length alerts <= 2 * List.length (items this))%nat.
Proof.
  intros this now alerts. subst alerts.
  rewrite getCriticalAlerts_generated. split.
  - intros a b A B E.
    apply criticalItems_of_type in A as (_ & A).
    apply criticalItems_of_type in B as (_ & B).
    cbn zeta in A, B. rewrite E in A.
    split; intros (Ta & Tb); rewrite Ta in A; rewrite Tb in B.
    + destruct A as [(_ & QA) | [(T & _) | [(T & _) | (T & _)]]];
        try discriminate T.
      destruct B as [(T & _) | [(_ & QB) | [(T & _) | (T & _)]]];
        try discriminate T.
      lia.
    + destruct A as [(T & _) | [(T & _) | [(_ & XA) | (T & _)]]];
        try discriminate T.
      destruct B as [(T & _) | [(T & _) | [(T & _) | (_ & DB)]]];
        try discriminate T.
      apply isExpired_days in XA. lia.
  - unfold criticalItems, getExpiredItems.
    rewrite !length_app, !length_map.
    pose (outOf := fun item : Item.t => Item.quantity item =? 0).
    pose (critical := fun item : Item.t =>
            (Item.quantity item >? 0) &&
            (Item.quantity item <=?
               floorDiv (effectiveThreshold this item) 2)).
    pose (expired := fun item : Item.t =>
            isExpired now (Item.expiryDate item)).
    pose (soon := fun item : Item.t =>
            (getDaysUntilExpiry now (Item.expiryDate item) <=? 7) &&
            (getDaysUntilExpiry now (Item.expiryDate item) >? 0)).
    fold outOf critical expired soon.
    assert (S : (List.length (filter outOf (items this)) +
                 List.length (filter critical (items this)) <=
                 List.length (items this))%nat).
    { apply filter_disjoint_length. subst outOf critical. cbn beta.
      intros item H. apply Z.eqb_eq in H. now rewrite H. }
    assert (X : (List.length (filter expired (items this)) +
                 List.length (filter soon (items this)) <=
                 List.length (items this))%nat).
    { apply filter_disjoint_length. subst expired soon. cbn beta.
      intros item H. apply isExpired_days in H.
      apply andb_false_iff. right. rewrite Z.gtb_ltb. now apply Z.ltb_ge. }
    lia.
Qed.

(** X12. The alert list is empty exactly when every record has a quantity
    other than 0 that is not in the range 0 < quantity <= threshold / 2, is
    not expired, and does not expire within the next 7 days. *)
Theorem getCriticalAlerts_empty_iff :
  forall (this : InventoryData.t) (now : Z),
    getCriticalAlerts this now = [] <->
    Forall (fun item =>
              let days := getDaysUntilExpiry now (Item.expiryDate item) in
              Item.quantity item <> 0
              /\ ~ (0 < Item.quantity item <= effectiveThreshold this item / 2)
              /\ isExpired now (Item.expiryDate item) = false
              /\ ~ (0 < days <= 7))
      (items this).
Proof.
  intros this now. rewrite getCriticalAlerts_generated.
  unfold criticalItems, getExpiredItems.
  split.
  - intros H.
    apply app_eq_nil in H as [H1 H]. apply app_eq_nil in H as [H2 H].
    apply app_eq_nil in H as [H3 H4].
    apply map_eq_nil, filter_nil_iff in H1, H2, H3, H4.
    rewrite Forall_forall in H1, H2, H3, H4.
    apply Forall_forall. intros item I. cbn zeta.
    specialize (H1 item I). specialize (H2 item I).
    specialize (H3 item I). specialize (H4 item I). cbn beta in *.
    apply Z.eqb_neq in H1.
    apply andb_false_iff in H2. apply andb_false_iff in H4.
    unfold floorDiv in H2.
    rewrite Z.gtb_ltb, Z.ltb_ge, Z.leb_gt in H2.
    rewrite Z.gtb_ltb, Z.ltb_ge, Z.leb_gt in H4.
    repeat split; auto; lia.
  - intros F. rewrite Forall_forall in F.
    assert (N : forall (T : Item.t -> Alert.t) (p : Item.t -> bool),
               (forall item, In item (items this) -> p item = false) ->
               map T (filter p (items this)) = []).
    { intros T p H. replace (filter p (items this)) with (@nil Item.t);
        [reflexivity |].
      symmetry. apply filter_nil_iff, Forall_forall. exact H. }
    rewrite !N; [reflexivity | | | |]; intros item I;
      destruct (F item I) as (Q & C & X & D); cbn zeta in D.
    + apply andb_false_iff. rewrite Z.gtb_ltb, Z.ltb_ge, Z.leb_gt. lia.
    + exact X.
    + apply andb_false_iff. unfold floorDiv.
      rewrite Z.gtb_ltb, Z.ltb_ge, Z.leb_gt. lia.
    + now apply Z.eqb_neq.
Qed.

Lemma criticalLow_alert_iff (this : InventoryData.t) (now : Z)
  (item : Item.t) :
  In item (items this) ->
  In (Alert.mk "critical-low" item high) (criticalItems this now) <->
  0 < Item.quantity item <= effectiveThreshold this item / 2.
Proof.
  intros I. split.
  - intros H. apply criticalItems_of_type in H as (_ & H). cbn in H.
    destruct H as [(T & _) | [(_ & H) | [(T & _) | (T & _)]]];
      try discriminate T.
    exact H.
  - intros H. unfold criticalItems.
    apply in_or_app. right. apply in_or_app. left.
    apply (in_map (fun item => Alert.mk "critical-low" item high)).
    apply filter_In. split; [exact I |].
    apply andb_true_iff. unfold floorDiv.
    rewrite Z.gtb_ltb, Z.ltb_lt, Z.leb_le. lia.
Qed.

(** X13. Every expired alert is for a record of [getExpiredItems].  When
    the warning window of the store is at least 7 days, every expiring-soon
    alert is for a record of [getExpiringSoonItems]. *)
Theorem getCriticalAlerts_expiry_lists :
  forall (this : InventoryData.t) (now : Z) (a : Alert.t),
    In a (getCriticalAlerts this now) ->
    (Alert.type a = "expired" ->
     In (Alert.item a) (getExpiredItems this now))
    /\ (7 <= expiryWarningDays this ->
        Alert.type a = "expiring-soon" ->
        In (Alert.item a) (getExpiringSoonItems this now)).
Proof.
  intros this now a H. rewrite getCriticalAlerts_generated in H.
  apply criticalItems_of_type in H as (I & H). cbn zeta in H.
  split.
  - intros T. rewrite T in H.
    destruct H as [(E & _) | [(E & _) | [(_ & H) | (E & _)]]];
      try discriminate E.
    apply filter_In. now split.
  - intros W T. rewrite T in H.
    destruct H as [(E & _) | [(E & _) | [(E & _) | (_ & H)]]];
      try discriminate E.
    apply filter_In. split; [exact I |].
    assert (S : isExpiringSoon now (Item.expiryDate (Alert.item a))
                  (expiryWarningDays this) = true).
    { rewrite isExpiringSoon_days. apply andb_true_iff.
      rewrite Z.gtb_ltb, Z.ltb_lt, Z.leb_le. lia. }
    rewrite S. now rewrite (isExpiringSoon_not_expired _ _ _ S).
Qed.

Lemma getCriticalAlerts_expiry_lists_witness :
  In Examples.expiringSoonItem
    (getExpiringSoonItems Examples.alertStore Examples.morning).
Proof.
  refine (proj2 (getCriticalAlerts_expiry_lists Examples.alertStore
                   Examples.morning
                   (Alert.mk "expiring-soon" Examples.expiringSoonItem medium)
                   _) _ _).
  - vm_compute. auto.
  - discriminate.
  - reflexivity.
Defined.

(** X14. A record whose effective threshold is below 2 never raises a
    critical-low alert.  A record stored with a threshold of 0 is measured
    against the default threshold of the store, so it does raise the alert
    when 0 < quantity <= default / 2. *)
Theorem critical_low_degenerate_thresholds :
  forall (this : InventoryData.t) (now : Z) (item : Item.t),
    In item (items this) ->
    let alert := Alert.mk "critical-low" item high in
    (effectiveThreshold this item < 2 ->
     ~ In alert (getCriticalAlerts this now))
    /\ (Item.lowStockThreshold item = Some 0 ->
        (In alert (getCriticalAlerts this now) <->
         0 < Item.quantity item <= lowStockThreshold this / 2)).
Proof.
  intros this now item I alert. subst alert.
  rewrite getCriticalAlerts_generated.
  rewrite (criticalLow_alert_iff this now item I).
  split.
  - intros T [P L].
    assert (effectiveThreshold this item / 2 <= 0).
    { apply Z.lt_succ_r. apply Z.div_lt_upper_bound; lia. }
    lia.
  - intros Z0. unfold effectiveThreshold. rewrite Z0. reflexivity.
Qed.

Lemma critical_low_degenerate_thresholds_witness :
  let item := Examples.sample "z" 4 (Some 0) (Examples.day 400) 0 in
  In (Alert.mk "critical-low" item high)
    (getCriticalAlerts (Examples.store [item]) Examples.morning).
Proof.
  intros item.
  refine (proj2 (proj2 (critical_low_degenerate_thresholds
                          (Examples.store [item]) Examples.morning item _)
                   eq_refl) _).
  - now left.
  - split; [reflexivity | discriminate].
Defined.

(** ** Dashboard *)

(** X15. Fed with the three lists of the analytics request, as the
    dashboard does, [prepareCriticalAlerts] never produces an out-of-stock
    alert: its out-of-stock rule looks for quantity 0 among the low-stock
    items, which all have a positive quantity.  The list it returns is the
    expired alerts, then the critical-low ones, then the expiring-soon
    ones. *)
Theorem dashboard_alerts_without_out_of_stock :
  forall (this : InventoryData.t) (now now' : Z),
    let alerts :=
      DashboardManager.prepareCriticalAlerts (getLowStockItems this)
        (getExpiringSoonItems this now) (getExpiredItems this now) now' in
    Forall (fun a => Alert.type a <> "out-of-stock") alerts
    /\ alerts =
       map (fun item => Alert.mk "expired" item high)
         (getExpiredItems this now)
       ++ map (fun item => Alert.mk "critical-low" item high)
            (filter (fun item =>
                       (Item.quantity item >? 0) &&
                       (Item.quantity item <=?
                          floorDiv (orDefault (Item.lowStockThreshold item) 10)
                            2))
               (getLowStockItems this))
       ++ map (fun item => Alert.mk "expiring-soon" item medium)
            (filter (fun item =>
                       (getDaysUntilExpiry now' (Item.expiryDate item) <=? 7)
                       && (getDaysUntilExpiry now' (Item.expiryDate item)
                           >? 0))
               (getExpiringSoonItems this now)).
Proof.
  intros this now now' alerts.
  assert (E : filter (fun item => Item.quantity item =? 0)
                (getLowStockItems this) = []).
  { apply filter_nil_iff, Forall_forall. intros item H.
    apply filter_In in H as [_ H]. apply andb_true_iff in H as [_ H].
    apply Z.gtb_lt in H. apply Z.eqb_neq. lia. }
  assert (P : alerts =
              DashboardManager.preparedAlerts (getLowStockItems this)
                (getExpiringSoonItems this now) (getExpiredItems this now)
                now').
  { apply (sort_sorted_id (fun a => priorityOrder (Alert.priority a))).
    unfold DashboardManager.preparedAlerts. rewrite !app_assoc.
    apply (two_blocks_sorted _ 3 2); [lia | |].
    - repeat (apply Forall_app; split); now apply Forall_map_const.
    - now apply Forall_map_const. }
  split.
  - rewrite P. unfold DashboardManager.preparedAlerts. rewrite E.
    cbn [map app].
    repeat (apply Forall_app; split);
      apply Forall_map_const; intros item; cbn; discriminate.
  - rewrite P. unfold DashboardManager.preparedAlerts. rewrite E.
    reflexivity.
Qed.

(** ** Inventory table *)

(** X16. Every status computed by [getItemStatus] has a label of its own in
    the inventory table; the fallback label 'Unknown' is never shown for a
    record. *)
Theorem getStatusLabel_of_item_status :
  forall (this : InventoryData.t) (now : Z) (item : Item.t),
    let label :=
      InventoryManager.getStatusLabel (getItemStatus this now item) in
    In label ["In Stock"; "Low Stock"; "Out of Stock"; "Expiring Soon";
              "Expired"]
    /\ label <> "Unknown"
    /\ (label = "Out of Stock" <-> Item.quantity item = 0).
Proof.
  intros this now item. unfold getItemStatus.
  destruct (Z.eqb_spec (Item.quantity item) 0) as [Q | Q];
    [| destruct (isExpired now (Item.expiryDate item));
       [| destruct (isExpiringSoon now (Item.expiryDate item)
                      (expiryWarningDays this));
          [| destruct (Item.quantity item <=? effectiveThreshold this item)]]];
    cbn; repeat split; auto 6; try discriminate; try intros H;
    try discriminate H; try contradiction.
Qed.

(** ** API layer *)

(** X17. [validateItemData] accepts a payload exactly when its name and
    category are non-empty strings, its quantity is a number greater than
    0, and its expiry date is a non-empty string that parses to a valid
    date.  A quantity of 0 is refused with the message that the quantity is
    required, a negative quantity with the message that it must be
    non-negative; a refusal always carries at least one message. *)
Theorem validateItemData_accepts :
  forall (isValidDate : string -> bool) (itemData : ItemData.t),
    let result := InventoryAPI.validateItemData isValidDate itemData in
    (result = Valid <->
     InventoryAPI.truthyString (ItemData.name itemData) = true
     /\ InventoryAPI.truthyString (ItemData.category itemData) = true
     /\ (exists q, ItemData.quantity itemData = Some q /\ 0 < q)
     /\ (exists d, ItemData.expiryDate itemData = Some d
                   /\ d <> EmptyString /\ isValidDate d = true))
    /\ (forall errors, result = ValidationError errors -> errors <> [])
    /\ (ItemData.quantity itemData = Some 0 ->
        exists errors,
          result = ValidationError errors
          /\ In "quantity is required" errors)
    /\ (forall q, ItemData.quantity itemData = Some q -> q < 0 ->
        exists errors,
          result = ValidationError errors
          /\ In "Quantity must be non-negative" errors).
Proof.
  intros isValidDate [name category quantity expiryDate] result.
  subst result.
  unfold InventoryAPI.validateItemData, InventoryAPI.requiredErrors.
  cbn [ItemData.name ItemData.category ItemData.quantity ItemData.expiryDate].
  split; [| split; [| split]].
  - assert (R : forall P : Prop, (P -> False) ->
                forall errors e,
                  ValidationError (e :: errors) = Valid <-> P).
    { intros P N errors e. split; [discriminate | intros H; elim (N H)]. }
    destruct name as [[| ? ?] |], category as [[| ? ?] |];
      cbn [InventoryAPI.truthyString app];
      try (apply R; intros (H1 & H2 & _); discriminate).
    destruct expiryDate as [[| c d] |];
      [| destruct (isValidDate (String c d)) eqn:V |];
      destruct quantity as [[| q | q] |];
      cbn [InventoryAPI.truthyNumber InventoryAPI.truthyString Z.eqb negb
           app andb Z.ltb Z.compare];
      try (apply R; intros (_ & _ & (q' & Eq & P) & (d' & Ed & Nd & Vd));
           inversion Eq; inversion Ed; subst; try lia; congruence).
    split; [intros _ | reflexivity].
    split; [reflexivity |]. split; [reflexivity |].
    split; [exists (Z.pos q); split; [reflexivity | lia] |].
    exists (String c d). repeat split; [discriminate | exact V].
  - intros errors H.
    destruct (_ ++ _) as [| e es] eqn:E in H; [discriminate |].
    injection H as <-. discriminate.
  - intros ->. cbn [InventoryAPI.truthyNumber Z.eqb negb andb].
    match goal with
    | |- exists errors, match ?l with _ => _ end = _ /\ _ =>
        assert (I : In "quantity is required" l)
    end.
    { apply in_or_app; left.
      apply in_or_app; right. apply in_or_app; right.
      apply in_or_app; left. now left. }
    destruct (_ ++ _) as [| e es] in I |- *; [contradiction |].
    eexists. split; [reflexivity | exact I].
  - intros q -> N.
    match goal with
    | |- exists errors, match ?l with _ => _ end = _ /\ _ =>
        assert (I : In "Quantity must be non-negative" l)
    end.
    { apply in_or_app; right. apply in_or_app; left.
      destruct q as [| q | q]; try lia. now left. }
    destruct (_ ++ _) as [| e es] in I |- *; [contradiction |].
    eexists. split; [reflexivity | exact I].
Qed.

Lemma validateItemData_accepts_witness :
  let payload :=
    ItemData.mk (Some "Gauze") (Some "Consumable") (Some 0)
      (Some "2026-01-31") in
  exists errors,
    InventoryAPI.validateItemData (fun _ => true) payload =
    ValidationError errors
    /\ In "quantity is required" errors.
Proof.
  intros payload.
  refine (proj1 (proj2 (proj2 (validateItemData_accepts (fun _ => true)
                                 payload))) _).
  reflexivity.
Defined.

(** X18. In [applyFilters] a status filter replaces whatever the search and
    the category filter selected: unless the search fails, the result is
    the status filter applied to the whole store.  A search takes its input
    from the store and not from the list handed to [applyFilters].  With no
    filter at all the list is returned as it is. *)
Theorem applyFilters_status_overrides :
  forall (items items' : list Item.t) (filters : Filters.t)
         (this : InventoryData.t) (now : Z),
    (forall c s,
       Filters.status filters = Some (String c s) ->
       InventoryAPI.applyFilters items filters this now = TypeError
       \/ InventoryAPI.applyFilters items filters this now =
          Normal (filterByStatus (String c s) this now))
    /\ (InventoryAPI.truthyString (Filters.search filters) = true ->
        InventoryAPI.applyFilters items filters this now =
        InventoryAPI.applyFilters items' filters this now)
    /\ InventoryAPI.applyFilters items (Filters.mk None None None) this now =
       Normal items
    /\ InventoryAPI.applyFilters items
         (Filters.mk (Some "") (Some "") (Some "")) this now =
       Normal items.
Proof.
  intros items items' [search category status] this now.
  unfold InventoryAPI.applyFilters.
  cbn [Filters.search Filters.category Filters.status].
  split; [| split; [| split; reflexivity]].
  - intros c s ->.
    destruct search as [[| ? ?] |]; auto.
    destruct (searchItems _ this); auto.
  - destruct search as [[| ? ?] |]; cbn; try discriminate. reflexivity.
Qed.

Lemma applyFilters_status_overrides_witness :
  let this := Examples.store Examples.fiveItems in
  let filters :=
    Filters.mk (Some "Item 3") (Some "Equipment") (Some "low-stock") in
  InventoryAPI.applyFilters (items this) filters this Examples.morning =
  Normal Examples.fiveItems.
Proof.
  intros this filters.
  destruct (proj1 (applyFilters_status_overrides (items this) [] filters
                     this Examples.morning) "l"%char "ow-stock" eq_refl)
    as [H | H].
  - discriminate H.
  - rewrite H. reflexivity.
Defined.

(** ** Utilities *)

Lemma string_length_append (s1 s2 : string) :
  String.length (s1 ++ s2)%string = (String.length s1 + String.length s2)%nat.
Proof.
  induction s1 as [| c s1 IH]; cbn; congruence.
Qed.

Lemma string_length_substring0 (n : nat) (s : string) :
  String.length (String.substring 0 n s) = Nat.min n (String.length s).
Proof.
  revert n. induction s as [| c s IH]; intros [| n]; cbn; auto.
Qed.

(** X19. [clamp] returns a value between the bounds when they are in order,
    leaves a value that already lies between them unchanged, and applied
    twice gives the same as applied once.  With the bounds in the wrong
    order it always returns the upper one. *)
Theorem clamp_within_bounds :
  forall (num min max : Z),
    (min <= max ->
     min <= Utils.clamp num min max <= max
     /\ (min <= num <= max -> Utils.clamp num min max = num)
     /\ (num < min -> Utils.clamp num min max = min)
     /\ (max < num -> Utils.clamp num min max = max))
    /\ Utils.clamp (Utils.clamp num min max) min max = Utils.clamp num min max
    /\ (max < min -> Utils.clamp num min max = max).
Proof.
  intros num min max. unfold Utils.clamp. lia.
Qed.

Lemma clamp_within_bounds_witness :
  0 <= Utils.clamp (-7) 0 100 <= 100 /\ Utils.clamp 5 10 0 = 0.
Proof.
  split.
  - refine (proj1 (proj1 (clamp_within_bounds (-7) 0 100) _)). discriminate.
  - refine (proj2 (proj2 (clamp_within_bounds 5 10 0)) _). reflexivity.
Defined.

(** X20. [truncateText] returns a text that is not longer than the limit
    unchanged.  A longer text is cut to its first [maxLength] characters
    followed by three dots, so the result has max(maxLength, 0) + 3
    characters: up to three more than the limit, and more than the text
    itself when the text exceeds the limit by one or two characters. *)
Theorem truncateText_length :
  forall (text : string) (maxLength : Z),
    let result := Utils.truncateText text maxLength in
    let len := Z.of_nat (String.length text) in
    (len <= maxLength -> result = text)
    /\ (maxLength < len ->
        result =
        (String.substring 0 (Z.to_nat maxLength) text ++ "...")%string
        /\ Z.of_nat (String.length result) = Z.max maxLength 0 + 3
        /\ String.prefix (String.substring 0 (Z.to_nat maxLength) text) text
           = true)
    /\ (0 <= maxLength -> maxLength < len < maxLength + 3 ->
        len < Z.of_nat (String.length result)).
Proof.
  intros text maxLength result len. subst result len.
  unfold Utils.truncateText.
  destruct (Z.leb_spec (Z.of_nat (String.length text)) maxLength) as [L | L].
  - repeat split; intros; try reflexivity; lia.
  - assert (E : Z.of_nat
                  (String.length
                     (String.substring 0 (Z.to_nat maxLength) text ++ "..."))
                = Z.max maxLength 0 + 3).
    { rewrite string_length_append, string_length_substring0. cbn. lia. }
    split; [lia |]. split.
    + intros _. split; [reflexivity |]. split; [exact E |].
      apply prefix_correct.
      rewrite string_length_substring0.
      generalize (Z.to_nat maxLength). intros n.
      clear. revert n.
      induction text as [| c s IH]; intros [| n]; cbn; auto.
      now rewrite IH.
    + intros P R. rewrite E. lia.
Qed.

Lemma truncateText_length_witness :
  Utils.truncateText "Paracetamol" 10 = "Paracetamo..."
  /\ Z.of_nat (String.length "Paracetamol") <
     Z.of_nat (String.length (Utils.truncateText "Paracetamol" 10)).
Proof.
  split; [reflexivity |].
  refine (proj2 (proj2 (truncateText_length "Paracetamol" 10)) _ _).
  - discriminate.
  - split; reflexivity.
Defined.

(** *** File extensions *)

Lemma lastIndexOf_range (c : ascii) (s : string) :
  -1 <= lastIndexOf c s < Z.of_nat (String.length s).
Proof.
  induction s as [| d s IH]; cbn [lastIndexOf String.length]; [lia |].
  rewrite Nat2Z.inj_succ.
  destruct (Z.geb_spec (lastIndexOf c s) 0); [lia |].
  destruct (Ascii.eqb d c); lia.
Qed.

Lemma lastIndexOf_absent (c : ascii) (s : string) :
  ~ In c (chars s) -> lastIndexOf c s = -1.
Proof.
  induction s as [| d s IH]; cbn [lastIndexOf chars]; [reflexivity |].
  intros N. rewrite IH by (intros H; apply N; now right). cbn.
  destruct (Ascii.eqb_spec d c) as [E | E]; [| reflexivity].
  exfalso. apply N. now left.
Qed.

Lemma lastIndexOf_last (c : ascii) (base ext : string) :
  ~ In c (chars ext) ->
  lastIndexOf c (base ++ String c ext) = Z.of_nat (String.length base).
Proof.
  intros N. induction base as [| d base IH].
  - cbn [append lastIndexOf String.length].
    rewrite (lastIndexOf_absent c ext N). cbn.
    now rewrite Ascii.eqb_refl.
  - cbn [append lastIndexOf String.length]. rewrite IH.
    rewrite Nat2Z.inj_succ.
    destruct (Z.geb_spec (Z.of_nat (String.length base)) 0); lia.
Qed.

Lemma slice_all (s : string) (start : Z) :
  Z.of_nat (String.length s) <= start -> slice s start = EmptyString.
Proof.
  revert start. induction s as [| d s IH]; intros start H;
    cbn [slice String.length] in *; [reflexivity |].
  rewrite Nat2Z.inj_succ in H.
  destruct (Z.leb_spec start 0); [lia |]. apply IH. lia.
Qed.

Lemma slice_append (base rest : string) :
  slice (base ++ rest) (Z.of_nat (String.length base)) = rest.
Proof.
  induction base as [| d base IH]; cbn [append slice String.length].
  - destruct rest; reflexivity.
  - rewrite Nat2Z.inj_succ.
    destruct (Z.leb_spec (Z.succ (Z.of_nat (String.length base))) 0);
      [lia |].
    replace (Z.succ (Z.of_nat (String.length base)) - 1)
      with (Z.of_nat (String.length base)) by lia.
    exact IH.
Qed.

(** X21. For a file name shorter than 2^32 characters, [getFileExtension]
    returns the text after the last dot when that dot is not the first
    character, and the empty string when the name has no dot or its only
    dot is the first character. *)
Theorem getFileExtension_after_last_dot :
  forall (filename base ext : string),
    Z.of_nat (String.length filename) < 2 ^ 32 ->
    ~ In "."%char (chars ext) ->
    (~ In "."%char (chars filename) ->
     Utils.getFileExtension filename = EmptyString)
    /\ (filename = String "." ext ->
        Utils.getFileExtension filename = EmptyString)
    /\ (filename = (base ++ String "." ext)%string ->
        base <> EmptyString ->
        Utils.getFileExtension filename = ext).
Proof.
  intros filename base ext L N. unfold Utils.getFileExtension, toUint32.
  split; [| split].
  - intros A. rewrite (lastIndexOf_absent _ _ A).
    apply slice_all. change ((-1 - 1) mod 2 ^ 32 + 2) with (2 ^ 32). lia.
  - intros ->.
    pose proof (lastIndexOf_last "." EmptyString ext N) as Z0.
    cbn [append String.length Z.of_nat] in Z0. rewrite Z0.
    apply slice_all.
    change ((0 - 1) mod 2 ^ 32 + 2) with (2 ^ 32 + 1).
    lia.
  - intros -> B.
    rewrite (lastIndexOf_last "." base ext N).
    rewrite string_length_append in L. cbn [String.length] in L.
    assert (0 < Z.of_nat (String.length base)).
    { destruct base; [congruence | cbn; lia]. }
    rewrite Z.mod_small by lia.
    replace (Z.of_nat (String.length base) - 1 + 2)
      with (Z.of_nat (String.length (base ++ ".")))
      by (rewrite string_length_append; cbn; lia).
    replace (base ++ String "." ext)%string
      with ((base ++ ".") ++ ext)%string.
    + apply slice_append.
    + clear. induction base; cbn; congruence.
Qed.

Lemma getFileExtension_after_last_dot_witness :
  Utils.getFileExtension "inventory.backup.json" = "json"
  /\ Utils.getFileExtension ".gitignore" = ""
  /\ Utils.getFileExtension "README" = "".
Proof.
  split; [| split].
  - refine (proj2 (proj2 (getFileExtension_after_last_dot
                            "inventory.backup.json" "inventory.backup" "json"
                            _ _)) _ _);
      try reflexivity; try discriminate.
    cbn. intuition discriminate.
  - refine (proj1 (proj2 (getFileExtension_after_last_dot
                            ".gitignore" "" "gitignore" _ _)) _);
      try reflexivity.
    cbn. intuition discriminate.
  - refine (proj1 (getFileExtension_after_last_dot "README" "" "" _ _) _);
      try reflexivity; cbn; intuition discriminate.
Defined.

(** *** Sanitising *)

Lemma removeAngleBrackets_chars (s : string) :
  Forall (fun c => c <> "<"%char /\ c <> ">"%char)
    (chars (Utils.removeAngleBrackets s)).
Proof.
  induction s as [| c s IH]; cbn; [constructor |].
  destruct (Ascii.eqb_spec c "<"); [exact IH |].
  destruct (Ascii.eqb_spec c ">"); [exact IH |].
  cbn. constructor; auto.
Qed.

Lemma removeAngleBrackets_id (s : string) :
  Forall (fun c => c <> "<"%char /\ c <> ">"%char) (chars s) ->
  Utils.removeAngleBrackets s = s.
Proof.
  induction s as [| c s IH]; cbn; [reflexivity |].
  intros H. inversion H as [| ? ? [L G] F]; subst.
  apply Ascii.eqb_neq in L, G. rewrite L, G. cbn. now rewrite IH.
Qed.

Lemma trimStart_incl (s : string) : incl (chars (trimStart s)) (chars s).
Proof.
  induction s as [| c s IH]; cbn; [apply incl_refl |].
  destruct (isWhiteSpace c); [now apply incl_tl | apply incl_refl].
Qed.

Lemma trimEnd_incl (s : string) : incl (chars (trimEnd s)) (chars s).
Proof.
  induction s as [| c s IH]; cbn; [apply incl_refl |].
  destruct (trimEnd s) as [| d r].
  - destruct (isWhiteSpace c); cbn; [apply incl_nil_l |].
    apply incl_cons; [now left | apply incl_nil_l].
  - cbn. apply incl_cons; [now left | now apply incl_tl].
Qed.

Lemma trimEnd_cons (c : ascii) (s : string) :
  isWhiteSpace c = false -> trimEnd (String c s) = String c (trimEnd s).
Proof.
  intros H. cbn. destruct (trimEnd s); [now rewrite H | reflexivity].
Qed.

Lemma trimEnd_idempotent (s : string) : trimEnd (trimEnd s) = trimEnd s.
Proof.
  induction s as [| c s IH]; cbn; [reflexivity |].
  destruct (trimEnd s) as [| d r] eqn:E.
  - destruct (isWhiteSpace c) eqn:W; cbn; [reflexivity | now rewrite W].
  - cbn [trimEnd] in *. rewrite IH. reflexivity.
Qed.

(** A trimmed text is empty or begins with a character that is not white
    space. *)
Lemma trimStart_head (s : string) :
  trimStart s = EmptyString
  \/ exists c r, trimStart s = String c r /\ isWhiteSpace c = false.
Proof.
  induction s as [| c s IH]; cbn; [now left |].
  destruct (isWhiteSpace c) eqn:W; [exact IH |].
  right. now exists c, s.
Qed.

Lemma trim_idempotent (s : string) : trim (trim s) = trim s.
Proof.
  unfold trim. destruct (trimStart_head s) as [E | (c & r & E & W)];
    rewrite E; [reflexivity |].
  rewrite (trimEnd_cons c r W). cbn [trimStart]. rewrite W.
  rewrite (trimEnd_cons c _ W). now rewrite trimEnd_idempotent.
Qed.

Lemma trim_incl (s : string) : incl (chars (trim s)) (chars s).
Proof.
  unfold trim. eapply incl_tran; [apply trimEnd_incl | apply trimStart_incl].
Qed.

(** X22. The text returned by [sanitizeInput] contains neither ['<'] nor
    ['>']; sanitising it again changes nothing.  Apart from removing these
    two characters and the surrounding white space the function changes
    nothing: a text without them that is already trimmed, whatever else it
    contains (quotes, ampersands), is returned as it is. *)
Theorem sanitizeInput_no_angle_brackets :
  forall (str : string),
    Forall (fun c => c <> "<"%char /\ c <> ">"%char)
      (chars (Utils.sanitizeInput str))
    /\ Utils.sanitizeInput (Utils.sanitizeInput str) = Utils.sanitizeInput str
    /\ (Forall (fun c => c <> "<"%char /\ c <> ">"%char) (chars str) ->
        trim str = str ->
        Utils.sanitizeInput str = str).
Proof.
  intros str.
  assert (C : Forall (fun c => c <> "<"%char /\ c <> ">"%char)
                (chars (Utils.sanitizeInput str))).
  { unfold Utils.sanitizeInput. apply Forall_forall. intros c H.
    apply trim_incl in H.
    pose proof (removeAngleBrackets_chars str) as F.
    rewrite Forall_forall in F. now apply F. }
  split; [exact C |]. split.
  - unfold Utils.sanitizeInput at 1.
    rewrite (removeAngleBrackets_id _ C).
    unfold Utils.sanitizeInput. apply trim_idempotent.
  - intros F T. unfold Utils.sanitizeInput.
    now rewrite (removeAngleBrackets_id _ F).
Qed.

Lemma sanitizeInput_no_angle_brackets_witness :
  Utils.sanitizeInput "  <b>Gauze & 'tape'</b> " = "bGauze & 'tape'/b"
  /\ Utils.sanitizeInput "Gauze & 'tape'" = "Gauze & 'tape'".
Proof.
  split; [reflexivity |].
  refine (proj2 (proj2 (sanitizeInput_no_angle_brackets "Gauze & 'tape'"))
            _ _).
  - repeat constructor; discriminate.
  - reflexivity.
Defined.

(** *** Colours *)

(** What [hexComponent] and [parsePair] do on one colour component, checked
    on every value from 0 to 255. *)
Lemma hexComponent_parsePair (x : Z) :
  0 <= x <= 255 ->
  exists c1 c2,
    Utils.hexComponent x = String c1 (String c2 EmptyString)
    /\ Utils.parsePair c1 c2 = Some x.
Proof.
  intros R.
  assert (A : forallb
                (fun n =>
                   match Utils.hexComponent (Z.of_nat n) with
                   | String c1 (String c2 EmptyString) =>
                       match Utils.parsePair c1 c2 with
                       | Some y => y =? Z.of_nat n
                       | None => false
                       end
                   | _ => false
                   end)
                (seq 0 256) = true) by (vm_compute; reflexivity).
  rewrite forallb_forall in A.
  specialize (A (Z.to_nat x)). rewrite Z2Nat.id in A by lia.
  assert (I : In (Z.to_nat x) (seq 0 256)) by (apply in_seq; lia).
  specialize (A I).
  destruct (Utils.hexComponent x) as [| c1 [| c2 [| ? ?]]];
    try discriminate A.
  exists c1, c2. split; [reflexivity |].
  destruct (Utils.parsePair c1 c2) as [y |]; [| discriminate A].
  apply Z.eqb_eq in A. now subst.
Qed.

(** X23. For components between 0 and 255, [hexToRgb] reads back from the
    text produced by [rgbToHex] the three components it was made of, with
    or without the leading ['#'].  A component above 255 makes [rgbToHex]
    produce more than six digits, which [hexToRgb] refuses. *)
Theorem rgbToHex_hexToRgb_round_trip :
  forall (r g b : Z),
    (0 <= r <= 255 -> 0 <= g <= 255 -> 0 <= b <= 255 ->
     Utils.hexToRgb (Utils.rgbToHex r g b) = Some (r, g, b)
     /\ Utils.hexToRgb (slice (Utils.rgbToHex r g b) 1) = Some (r, g, b)
     /\ String.length (Utils.rgbToHex r g b) = 7%nat)
    /\ Utils.rgbToHex 256 0 0 = "#1000000"
    /\ Utils.hexToRgb (Utils.rgbToHex 256 0 0) = None.
Proof.
  intros r g b. split; [| split; reflexivity].
  intros R G B.
  destruct (hexComponent_parsePair r R) as (r1 & r2 & Er & Pr).
  destruct (hexComponent_parsePair g G) as (g1 & g2 & Eg & Pg).
  destruct (hexComponent_parsePair b B) as (b1 & b2 & Eb & Pb).
  unfold Utils.rgbToHex. rewrite Er, Eg, Eb.
  cbn [append slice Z.leb Z.compare Utils.hexToRgb Utils.sixDigits
       String.length].
  assert (H : Utils.sixDigits
                (String r1 (String r2 (String g1 (String g2
                   (String b1 (String b2 EmptyString)))))) =
              Some (r, g, b)).
  { cbn [Utils.sixDigits]. now rewrite Pr, Pg, Pb. }
  split; [exact H |]. split; [| reflexivity].
  destruct r1 as [[] [] [] [] [] [] [] []]; exact H.
Qed.

Lemma rgbToHex_hexToRgb_round_trip_witness :
  Utils.rgbToHex 255 128 0 = "#ff8000"
  /\ Utils.hexToRgb (Utils.rgbToHex 255 128 0) = Some (255, 128, 0).
Proof.
  split; [reflexivity |].
  refine (proj1 (proj1 (rgbToHex_hexToRgb_round_trip 255 128 0) _ _ _));
    split; discriminate.
Defined.

(** *** Relative dates *)

(** X24. [formatRelativeTime] counts whole periods of 24 hours between the
    date and now.  A date in the last 24 hours reads 'Today' and one of the
    24 hours before 'Yesterday'.  From 7 days on it counts whole weeks (1 to
    4), from 30 days on whole months of 30 days (1 to 12), from 365 days on
    whole years.  A date in the future is reported with a negative number
    of days. *)
Theorem formatRelativeTime_ladder :
  forall (now date : Z),
    let days := (now - date) / msPerDay in
    let result := Utils.formatRelativeTime now date in
    (date <= now < date + msPerDay -> result = "Today")
    /\ (date + msPerDay <= now < date + 2 * msPerDay ->
        result = "Yesterday")
    /\ (now < date ->
        days < 0 /\ result = (numberToString days ++ " days ago")%string)
    /\ (2 <= days < 7 -> result = (numberToString days ++ " days ago")%string)
    /\ (7 <= days < 30 ->
        exists weeks, 1 <= weeks <= 4
          /\ result = (numberToString weeks ++ " weeks ago")%string)
    /\ (30 <= days < 365 ->
        exists months, 1 <= months <= 12
          /\ result = (numberToString months ++ " months ago")%string)
    /\ (365 <= days ->
        exists years, 1 <= years
          /\ result = (numberToString years ++ " years ago")%string).
Proof.
  intros now date days result. subst result.
  unfold Utils.formatRelativeTime, floorDiv. fold days.
  pose proof (floor_decompose msPerDay msPerDay_pos (now - date)) as [E R].
  fold days in E.
  pose proof msPerDay_pos as M.
  assert (D0 : date <= now < date + msPerDay -> days = 0) by nia.
  assert (D1 : date + msPerDay <= now < date + 2 * msPerDay -> days = 1)
    by nia.
  assert (DN : now < date -> days < 0) by nia.
  split; [| split; [| split; [| split; [| split; [| split]]]]].
  - intros H. now rewrite (D0 H).
  - intros H. now rewrite (D1 H).
  - intros H. apply DN in H. split; [exact H |].
    destruct (Z.eqb_spec days 0); [lia |].
    destruct (Z.eqb_spec days 1); [lia |].
    destruct (Z.ltb_spec days 7); [reflexivity | lia].
  - intros H.
    destruct (Z.eqb_spec days 0); [lia |].
    destruct (Z.eqb_spec days 1); [lia |].
    destruct (Z.ltb_spec days 7); [reflexivity | lia].
  - intros H. exists (days / 7).
    split; [split; [apply Z.div_le_lower_bound; lia
                   | apply Z.lt_succ_r, Z.div_lt_upper_bound; lia] |].
    destruct (Z.eqb_spec days 0); [lia |].
    destruct (Z.eqb_spec days 1); [lia |].
    destruct (Z.ltb_spec days 7); [lia |].
    destruct (Z.ltb_spec days 30); [reflexivity | lia].
  - intros H. exists (days / 30).
    split; [split; [apply Z.div_le_lower_bound; lia
                   | apply Z.lt_succ_r, Z.div_lt_upper_bound; lia] |].
    destruct (Z.eqb_spec days 0); [lia |].
    destruct (Z.eqb_spec days 1); [lia |].
    destruct (Z.ltb_spec days 7); [lia |].
    destruct (Z.ltb_spec days 30); [lia |].
    destruct (Z.ltb_spec days 365); [reflexivity | lia].
  - intros H. exists (days / 365).
    split; [apply Z.div_le_lower_bound; lia |].
    destruct (Z.eqb_spec days 0); [lia |].
    destruct (Z.eqb_spec days 1); [lia |].
    destruct (Z.ltb_spec days 7); [lia |].
    destruct (Z.ltb_spec days 30); [lia |].
    destruct (Z.ltb_spec days 365); [lia | reflexivity].
Qed.

Lemma formatRelativeTime_ladder_witness :
  Utils.formatRelativeTime Examples.morning (Examples.day 3) = "-3 days ago"
  /\ Utils.formatRelativeTime Examples.morning (Examples.day (-1)) = "Yesterday".
Proof.
  split.
  - vm_compute. reflexivity.
  - refine (proj1 (proj2 (formatRelativeTime_ladder Examples.morning
                            (Examples.day (-1)))) _).
    split; vm_compute; [discriminate | reflexivity].
Defined.

(** ** The properties above on sample stores *)

Lemma deleteItem_removes_first_match_witness :
  exists pre post,
    Examples.fiveItems =
    pre ++ Examples.sample "3" 5 None (Examples.day 400) (Examples.day (-5))
        :: post
    /\ items (snd (deleteItem "3" (Examples.store Examples.fiveItems))) =
       pre ++ post
    /\ "3" = "3"
    /\ Forall (fun item => Item.id item <> "3") pre.
Proof.
  exact (proj2 (proj2 (deleteItem_removes_first_match
                         (Examples.store Examples.fiveItems) "3"))).
Defined.

Lemma getCriticalAlerts_exclusive_witness :
  (List.length (getCriticalAlerts Examples.alertStore Examples.morning) <=
   2 * List.length (items Examples.alertStore))%nat.
Proof.
  exact (proj2 (getCriticalAlerts_exclusive Examples.alertStore
                  Examples.morning)).
Defined.

Lemma getCriticalAlerts_empty_iff_witness :
  let item := Examples.sample "h" 50 None (Examples.day 400) 0 in
  getCriticalAlerts (Examples.store [item]) Examples.morning = [].
Proof.
  intros item.
  apply (proj2 (getCriticalAlerts_empty_iff (Examples.store [item])
                  Examples.morning)).
  constructor; [| constructor]. cbn zeta.
  split; [discriminate |].
  split; [intros [_ H]; vm_compute in H; now apply H |].
  split; [reflexivity |].
  intros [_ H]. vm_compute in H. now apply H.
Defined.

Lemma dashboard_alerts_without_out_of_stock_witness :
  let this := Examples.store [Examples.outOfStockItem] in
  map Alert.type (getCriticalAlerts this Examples.morning) = ["out-of-stock"]
  /\ Forall (fun a => Alert.type a <> "out-of-stock")
       (DashboardManager.prepareCriticalAlerts (getLowStockItems this)
          (getExpiringSoonItems this Examples.morning)
          (getExpiredItems this Examples.morning) Examples.morning).
Proof.
  intros this. split; [reflexivity |].
  exact (proj1 (dashboard_alerts_without_out_of_stock this Examples.morning
                  Examples.morning)).
Defined.

Lemma getStatusLabel_of_item_status_witness :
  InventoryManager.getStatusLabel
    (getItemStatus (Examples.store [Examples.outOfStockItem])
       Examples.morning Examples.outOfStockItem) = "Out of Stock".
Proof.
  apply (proj2 (proj2 (getStatusLabel_of_item_status
                         (Examples.store [Examples.outOfStockItem])
                         Examples.morning Examples.outOfStockItem))).
  reflexivity.
Defined.
